(** * Verification of the generative-AI command handler (ts.py)

    A shallow embedding of [ts.py]: the attachment classifier
    [_valid_file], the upload-and-poll helper [_upload_file], the input
    materializer [prepare_input_data] and the shared command handler
    [ai_process_handler] with its bounded retry loop, its chunked delivery
    of the answer and its clean-up of the downloaded file.

    The chat client, the inference service, the image library and the
    local file system are external collaborators.  Their answers are
    given by an environment [Env]; what the handler does to them is
    recorded in a [World]: the log of performed operations and the set of
    files on disk.  Computations live in a state-and-exception monad in
    which the world survives a raised exception, as it does in Python. *)

From Stdlib Require Import String Ascii List Arith Bool Lia.
Import ListNotations.
Local Open Scope list_scope.
Local Open Scope nat_scope.
Local Open Scope string_scope.
Set Warnings "-abstract-large-number".

(** ** Python strings *)

Module PyStr.

(** [c.lower()] on one character (ASCII letters). *)
Definition lower_ascii (c : ascii) : ascii :=
  let n := nat_of_ascii c in
  if Nat.leb 65 n && Nat.leb n 90 then ascii_of_nat (n + 32) else c.

(** [c.upper()] on one character (ASCII letters). *)
Definition upper_ascii (c : ascii) : ascii :=
  let n := nat_of_ascii c in
  if Nat.leb 97 n && Nat.leb n 122 then ascii_of_nat (n - 32) else c.

(** [s.lower()] *)
Fixpoint lower (s : string) : string :=
  match s with
  | EmptyString => EmptyString
  | String c t => String (lower_ascii c) (lower t)
  end.

(** [s.capitalize()]: first character upper-cased, the rest lower-cased. *)
Definition capitalize (s : string) : string :=
  match s with
  | EmptyString => EmptyString
  | String c t => String (upper_ascii c) (lower t)
  end.

(** [needle in hay] *)
Fixpoint contains (needle hay : string) : bool :=
  String.prefix needle hay ||
  match hay with
  | EmptyString => false
  | String _ t => contains needle t
  end.

(** [s.endswith(suffix)] *)
Definition endswith (s suffix : string) : bool :=
  Nat.leb (String.length suffix) (String.length s) &&
  String.eqb
    (substring (String.length s - String.length suffix) (String.length suffix) s)
    suffix.

(** [s[i:j]] for [0 <= i <= j]: the slice is clipped at the end of [s]. *)
Definition slice (s : string) (i j : nat) : string := substring i (j - i) s.

(** [range(start, stop, step)] for a positive [step]. *)
Definition range_len (start stop step : nat) : nat :=
  (stop - start + (step - 1)) / step.

Definition range (start stop step : nat) : list nat :=
  map (fun k => start + k * step) (seq 0 (range_len start stop step)).

(** [any(x in msg for x in needles)] *)
Definition any_in (needles : list string) (msg : string) : bool :=
  existsb (fun x => contains x msg) needles.

End PyStr.

(** ** Python values the handler inspects *)

(** An attribute read with [getattr(obj, name, default)]: the attribute
    may be missing, hold [None], or hold a value. *)
Inductive attr (A : Type) : Type :=
| Absent
| PyNone
| Val (a : A).
Arguments Absent {A}.
Arguments PyNone {A}.
Arguments Val {A} a.

(** Exceptions.  The handler tells exceptions apart by class
    ([except ValueError], [except Exception]) and by message ([str(e)]). *)
Inductive exn_class : Type :=
| ValueError          (* ValueError or one of its subclasses *)
| UnboundLocalError
| IndexError
| OtherException      (* any other subclass of Exception *)
| BaseOnly.           (* BaseException outside Exception (cancellation, interrupt) *)

Record exn : Type := { cls : exn_class; str : string }.

Definition is_ValueError (e : exn) : bool :=
  match cls e with ValueError => true | _ => false end.

Definition is_Exception (e : exn) : bool :=
  match cls e with BaseOnly => false | _ => true end.

(** A media object attached to a chat message. *)
Record Media : Type := { file_id : string }.

(** The replied-to message: each attachment accessor is [None] or a media
    object. *)
Record Reply : Type := {
  photo : option Media;
  audio : option Media;
  voice : option Media;
  video : option Media;
  video_note : option Media;
  document : option Media
}.

(** What [_valid_file] can return: a [bool], [None], or the attachment
    picked by the [or] chain. *)
Inductive pyval : Type :=
| VBool (b : bool)
| VNone
| VMedia (m : Media).

(** Truth value of a Python value ([if v], [not v]). *)
Definition truthy (v : pyval) : bool :=
  match v with
  | VBool b => b
  | VNone => false
  | VMedia _ => true
  end.

Definition of_option (o : option Media) : pyval :=
  match o with Some m => VMedia m | None => VNone end.

(** Python's [a or b]: [a] when it is truthy, otherwise [b]. *)
Definition py_or (a b : pyval) : pyval := if truthy a then a else b.

Definition present (o : option Media) : bool :=
  match o with Some _ => true | None => false end.

(** ** Attachment classifier *)

(** [_valid_file(reply, file_type=None)] *)
Definition _valid_file (reply : Reply) (file_type : option string) : pyval :=
  if match file_type with Some t => t =? "image" | None => false end then
    VBool (present (photo reply))
  else if match file_type with
          | Some t => (t =? "audio") || (t =? "video")
          | None => false
          end then
    VBool (existsb present [audio reply; voice reply; video reply; video_note reply])
  else
    py_or (of_option (photo reply))
      (py_or (of_option (audio reply))
         (py_or (of_option (voice reply))
            (py_or (of_option (video reply))
               (py_or (of_option (video_note reply))
                  (of_option (document reply)))))).

(** ** The collaborators and the world *)

(** A file registered with the inference service: [uploaded_file.name]
    and [uploaded_file.state.name]. *)
Record File : Type := { name : string; state_name : string }.

(** An image opened by the image library. *)
Record Image : Type := { img_path : string }.

(** One element of the list handed to [generate_content]. *)
Inductive part : Type :=
| PText (s : string)
| PImage (i : Image)
| PFile (f : File).

Record Candidate : Type := { finish_reason : string }.

(** The attributes of a response that the handler reads. *)
Record Response : Type := {
  candidates : attr (list Candidate);
  text : attr string
}.

(** [COOK_GEN_CONFIG]: the handler only passes it on. *)
Inductive gen_config : Type := COOK_GEN_CONFIG.

Inductive ParseMode : Type := MARKDOWN.

(** The calls the handler makes on its collaborators, in order. *)
Inductive event : Type :=
| EvEdit (body : string) (parse_mode : option ParseMode)   (* message.edit_text *)
| EvReply (body : string) (parse_mode : option ParseMode)  (* message.reply_text *)
| EvDelete                                                 (* message.delete *)
| EvDownload                                               (* reply.download *)
| EvUpload (path : string)                                 (* genai.upload_file *)
| EvGetFile (file : string)                                (* genai.get_file *)
| EvSleep (seconds : nat)                                  (* asyncio.sleep *)
| EvGenerate (config : option gen_config) (input : list part)
                                                           (* model.generate_content *)
| EvRemove (path : string).                                (* os.remove *)

Definition is_chat (ev : event) : bool :=
  match ev with EvEdit _ _ | EvReply _ _ | EvDelete => true | _ => false end.

Definition is_get_file (ev : event) : bool :=
  match ev with EvGetFile _ => true | _ => false end.

Definition is_generate (ev : event) : bool :=
  match ev with EvGenerate _ _ => true | _ => false end.

Definition is_sleep (ev : event) : bool :=
  match ev with EvSleep _ => true | _ => false end.

(** Number of calls of one kind made so far. *)
Definition calls (kind : event -> bool) (l : list event) : nat :=
  List.length (filter kind l).

(** What the collaborators answer.  A call that can fail answers with an
    exception ([inl]) or a value ([inr]); the [k]-th call of a kind may
    answer differently from the one before. *)
Record Env : Type := {
  prefix : string;                       (* utils.misc.prefix *)
  format_exc : exn -> string;            (* utils.scripts.format_exc *)
  chat : nat -> option exn;              (* k-th chat call: the exception it raises, if any *)
  download : Reply -> list string -> (exn + option string) * list string;
                                         (* reply.download(): result and files on disk after *)
  image_open : string -> exn + Image;    (* Image.open(path) *)
  image_verify : Image -> option exn;    (* img.verify() *)
  upload_file : string -> exn + File;    (* genai.upload_file(path) *)
  get_file : nat -> string -> exn + File;  (* k-th genai.get_file(name) *)
  generate_content : nat -> option gen_config -> list part -> exn + Response;
                                         (* k-th model.generate_content(input) *)
  os_remove : string -> option exn       (* os.remove(path): the exception it raises, if any *)
}.

(** The world: files on the local disk and the calls made so far. *)
Record World : Type := { files : list string; log : list event }.

(** The world after the calls [l]. *)
Definition extend (l : list event) (w : World) : World :=
  {| files := files w; log := (log w ++ l)%list |}.

Definition record (ev : event) (w : World) : World := extend [ev] w.

Definition exists_file (p : string) (w : World) : bool :=
  existsb (String.eqb p) (files w).

Definition unlink (p : string) (w : World) : World :=
  {| files := filter (fun q => negb (String.eqb p q)) (files w); log := log w |}.

(** ** The monad of handler computations *)

(** A computation returns, raises, or is still waiting when its fuel is
    spent (only the polling loop of [_upload_file] consumes fuel). *)
Inductive outcome (A : Type) : Type :=
| Ret (a : A)
| Raise (e : exn)
| Pending.
Arguments Ret {A} a.
Arguments Raise {A} e.
Arguments Pending {A}.

Definition M (A : Type) : Type := World -> outcome A * World.

Definition ret {A} (a : A) : M A := fun w => (Ret a, w).

Definition raise {A} (e : exn) : M A := fun w => (Raise e, w).

Definition pending {A} : M A := fun w => (Pending, w).

Definition bind {A B} (m : M A) (k : A -> M B) : M B :=
  fun w =>
    match m w with
    | (Ret a, w') => k a w'
    | (Raise e, w') => (Raise e, w')
    | (Pending, w') => (Pending, w')
    end.

Notation "x <- m ;; k" := (bind m (fun x => k))
  (at level 61, m at next level, right associativity).
Notation "m ;; k" := (bind m (fun _ => k))
  (at level 61, right associativity).

(** [try: m  except BaseException as e: h e] *)
Definition try_except {A} (m : M A) (h : exn -> M A) : M A :=
  fun w =>
    match m w with
    | (Raise e, w') => h e w'
    | r => r
    end.

(** [try: m  finally: c].  The clean-up runs when [m] returns or raises;
    an exception of the clean-up replaces the outcome of [m]. *)
Definition try_finally {A} (m : M A) (c : M unit) : M A :=
  fun w =>
    match m w with
    | (Pending, w') => (Pending, w')
    | (r, w') =>
        match c w' with
        | (Ret _, w'') => (r, w'')
        | (Raise e, w'') => (Raise e, w'')
        | (Pending, w'') => (Pending, w'')
        end
    end.

(** [for x in l: body x] *)
Fixpoint for_each {A} (l : list A) (body : A -> M unit) : M unit :=
  match l with
  | [] => ret tt
  | x :: t => body x ;; for_each t body
  end.

(** Result of an external call, lifted into the monad. *)
Definition lift {A} (r : exn + A) : M A :=
  match r with inl e => raise e | inr a => ret a end.

Definition lift_opt (r : option exn) : M unit :=
  match r with Some e => raise e | None => ret tt end.

(** Reading a local variable that is not bound raises [UnboundLocalError]. *)
Definition unbound_local (var : string) : exn :=
  {| cls := UnboundLocalError;
     str := "cannot access local variable '" ++ var
            ++ "' where it is not associated with a value" |}.

Definition raise_var {A} (var : string) (v : option exn) : M A :=
  match v with Some x => raise x | None => raise (unbound_local var) end.

Definition nl : string := String (ascii_of_nat 10) EmptyString.

(** ** The program *)

Section Handler.

Variable env : Env.

(** *** Calls on the collaborators *)

Definition chat_call (ev : event) : M unit :=
  fun w => lift_opt (chat env (calls is_chat (log w))) (record ev w).

Definition edit_text (body : string) (parse_mode : option ParseMode) : M unit :=
  chat_call (EvEdit body parse_mode).

Definition reply_text (body : string) (parse_mode : option ParseMode) : M unit :=
  chat_call (EvReply body parse_mode).

Definition delete : M unit := chat_call EvDelete.

Definition sleep (seconds : nat) : M unit :=
  fun w => (Ret tt, record (EvSleep seconds) w).

Definition reply_download (reply : Reply) : M (option string) :=
  fun w =>
    let (r, fs) := download env reply (files w) in
    lift r {| files := fs; log := (log w ++ [EvDownload])%list |}.

Definition genai_upload_file (path : string) : M File :=
  fun w => lift (upload_file env path) (record (EvUpload path) w).

Definition genai_get_file (file : string) : M File :=
  fun w =>
    lift (get_file env (calls is_get_file (log w)) file) (record (EvGetFile file) w).

Definition model_generate_content
    (config : option gen_config) (input : list part) : M Response :=
  fun w =>
    lift (generate_content env (calls is_generate (log w)) config input)
         (record (EvGenerate config input) w).

Definition os_path_exists (path : string) : M bool :=
  fun w => (Ret (exists_file path w), w).

Definition os_remove_call (path : string) : M unit :=
  fun w =>
    match os_remove env path with
    | Some e => (Raise e, record (EvRemove path) w)
    | None => (Ret tt, unlink path (record (EvRemove path) w))
    end.

(** *** [_upload_file] *)

(** The [while uploaded_file.state.name == "PROCESSING"] loop; each turn
    of the loop spends one unit of fuel. *)
Fixpoint poll (fuel : nat) (uploaded_file : File) : M File :=
  if state_name uploaded_file =? "PROCESSING" then
    match fuel with
    | 0 => pending
    | S fuel' =>
        sleep 5 ;;
        uploaded_file' <- genai_get_file (name uploaded_file) ;;
        poll fuel' uploaded_file'
    end
  else ret uploaded_file.

Definition _upload_file (fuel : nat) (file_path file_type : string) : M File :=
  uploaded_file <- genai_upload_file file_path ;;
  uploaded_file <- poll fuel uploaded_file ;;
  if state_name uploaded_file =? "FAILED" then
    raise {| cls := ValueError;
             str := PyStr.capitalize file_type ++ " failed to process" |}
  else ret uploaded_file.

(** *** [prepare_input_data] *)

Definition prepare_input_data
    (fuel : nat) (reply : Reply) (file_path prompt : string) : M (list part) :=
  if present (photo reply) then
    img <- lift (image_open env file_path) ;;
    lift_opt (image_verify env img) ;;
    img <- lift (image_open env file_path) ;;
    ret [PText prompt; PImage img]
  else if present (video reply) || present (video_note reply) then
    h <- _upload_file fuel file_path "video" ;;
    ret [PText prompt; PFile h]
  else if present (audio reply) || present (voice reply) then
    h <- _upload_file fuel file_path "audio" ;;
    ret [PFile h; PText prompt]
  else if present (document reply) && PyStr.endswith file_path ".pdf" then
    h <- _upload_file fuel file_path "PDF" ;;
    ret [PText prompt; PFile h]
  else if present (document reply) then
    h <- _upload_file fuel file_path "document" ;;
    ret [PFile h; PText prompt]
  else raise {| cls := ValueError; str := "Unsupported file type" |}.

(** *** The retry loop of [ai_process_handler] (lines 83-106) *)

(** [not getattr(response, "candidates", [])] *)
Definition no_candidates (response : Response) : bool :=
  match candidates response with
  | Val (_ :: _) => false
  | _ => true
  end.

(** ["mimetype parameter" in msg and "not supported" in msg] *)
Definition mime_unsupported (msg : string) : bool :=
  PyStr.contains "mimetype parameter" msg && PyStr.contains "not supported" msg.

(** [any(x in msg for x in ("403", "429", "permission", "quota"))] *)
Definition transient (msg : string) : bool :=
  PyStr.any_in ["403"; "429"; "permission"; "quota"] msg.

(** How one turn of the [for] loop ends: [break] with the response, a
    [return] out of the handler, or the next turn.  [Continue] carries
    the local variable [e] as the [except] clause leaves it. *)
Inductive turn : Type :=
| Break (response : Response)
| Return
| Continue (e : option exn).

(** The body of the [for] loop: the inner [try] statement.  On leaving
    an [except ... as e] clause Python unbinds [e]. *)
Definition attempt
    (config : option gen_config) (expect_type : option string)
    (input_data : list part) : M turn :=
  try_except
    (response <- model_generate_content config input_data ;;
     if no_candidates response then
       edit_text "Could not generate response." None ;;
       ret Return
     else ret (Break response))
    (fun e =>
       if is_Exception e then
         let msg := PyStr.lower (str e) in
         if mime_unsupported msg then
           match expect_type with
           | None =>
               edit_text "Invalid file type. Please try again." None ;;
               ret Return
           | Some _ => raise e
           end
         else if transient msg then
           sleep 2 ;;
           ret (Continue None)
         else raise e
       else raise e).

(** What the loop hands to the rest of the handler. *)
Inductive invoked : Type :=
| Got (response : Response)
| Returned.

(** [n] remaining turns of [for _ in range(3)], then its [else] clause
    [raise e]; [e] is the local variable as it stands. *)
Fixpoint attempts
    (n : nat) (e : option exn)
    (config : option gen_config) (expect_type : option string)
    (input_data : list part) : M invoked :=
  match n with
  | 0 => raise_var "e" e
  | S n' =>
      t <- attempt config expect_type input_data ;;
      match t with
      | Break response => ret (Got response)
      | Return => ret Returned
      | Continue e' => attempts n' e' config expect_type input_data
      end
  end.

Definition retry_loop
    (config : option gen_config) (expect_type : option string)
    (input_data : list part) : M invoked :=
  attempts 3 None config expect_type input_data.

(** *** Building and delivering the answer (lines 108-116) *)

(** [getattr(response, 'text', '') or 'No content generated.'] *)
Definition text_or (response : Response) (default : string) : string :=
  match text response with
  | Val s => if s =? "" then default else s
  | _ => default
  end.

Definition result_text
    (prompt : string) (show_prompt : bool) (response : Response) : string :=
  (if show_prompt then "Prompt: " ++ prompt ++ nl else "")
  ++ "Answer: " ++ text_or response "No content generated.".

(** The consecutive slices [result_text[i:i+4000]]. *)
Definition chunks (result_text : string) : list string :=
  map (fun i => PyStr.slice result_text i (i + 4000))
      (PyStr.range 0 (String.length result_text) 4000).

Definition deliver (result_text : string) : M unit :=
  if Nat.ltb 4000 (String.length result_text) then
    for_each (PyStr.range 0 (String.length result_text) 4000)
      (fun i =>
         reply_text (PyStr.slice result_text i (i + 4000)) (Some MARKDOWN)) ;;
    delete
  else edit_text result_text (Some MARKDOWN).

(** *** [ai_process_handler] *)

(** Truth value of an optional string ([if expect_type]). *)
Definition truthy_str (o : option string) : bool :=
  match o with
  | Some s => negb (s =? "")
  | None => false
  end.

(** [expect_type] inside an f-string. *)
Definition fmt (o : option string) : string :=
  match o with
  | Some s => s
  | None => "None"
  end.

(** The incoming command message. *)
Record Message : Type := {
  reply_to_message : option Reply;
  command : list string;
  message_text : string                  (* message.text *)
}.

(** [message.command[0]] *)
Definition command0 (message : Message) : M string :=
  match command message with
  | c :: _ => ret c
  | [] => raise {| cls := IndexError; str := "list index out of range" |}
  end.

(** The [try] block (lines 77-116). *)
Definition answer
    (fuel : nat) (reply : Reply) (file_path prompt : string)
    (show_prompt cook_mode : bool) (expect_type : option string) : M unit :=
  input_data <- prepare_input_data fuel reply file_path prompt ;;
  r <- retry_loop (if cook_mode then Some COOK_GEN_CONFIG else None)
                  expect_type input_data ;;
  match r with
  | Returned => ret tt
  | Got response => deliver (result_text prompt show_prompt response)
  end.

(** The two [except] clauses (lines 118-122). *)
Definition report (e : exn) : M unit :=
  if is_ValueError e then edit_text (str e) None
  else if is_Exception e then edit_text ("Error: " ++ format_exc env e) None
  else raise e.

(** The [finally] clause (lines 124-129). *)
Definition cleanup (file_path : string) : M unit :=
  there <- os_path_exists file_path ;;
  if there then
    try_except (os_remove_call file_path)
               (fun e => if is_Exception e then ret tt else raise e)
  else ret tt.

(** The whole [try] statement (lines 76-129). *)
Definition process_file
    (fuel : nat) (reply : Reply) (file_path prompt : string)
    (show_prompt cook_mode : bool) (expect_type : option string) : M unit :=
  try_finally
    (try_except
       (answer fuel reply file_path prompt show_prompt cook_mode expect_type)
       report)
    (cleanup file_path).

Definition ai_process_handler
    (fuel : nat) (message : Message) (prompt : string)
    (show_prompt cook_mode : bool) (expect_type : option string)
    (status_msg : string) : M unit :=
  match reply_to_message message with
  | None =>
      c <- command0 message ;;
      edit_text
        (if truthy_str expect_type then
           "Usage: " ++ prefix env ++ c ++ " [custom prompt] [Reply to a "
           ++ fmt expect_type ++ "]"
         else "Usage: " ++ prefix env ++ c ++ " [prompt] [Reply to a file]")
        None
  | Some reply =>
      if negb (truthy (_valid_file reply expect_type)) then
        edit_text
          ("Invalid "
           ++ (if truthy_str expect_type then fmt expect_type else "supported")
           ++ " file. Please try again.")
          None
      else
        edit_text status_msg None ;;
        file_path <- reply_download reply ;;
        match file_path with
        | None => edit_text "Failed to process the file. Try again." None
        | Some p =>
            there <- os_path_exists p ;;
            if (p =? "") || negb there then
              edit_text "Failed to process the file. Try again." None
            else
              process_file fuel reply p prompt show_prompt cook_mode expect_type
        end
  end.

(** *** The command bindings *)

(** Whitespace as [str.split()] sees it (ASCII). *)
Definition is_space (c : ascii) : bool :=
  let n := nat_of_ascii c in
  Nat.eqb n 32 || (Nat.leb 9 n && Nat.leb n 13) || (Nat.leb 28 n && Nat.leb n 31).

Fixpoint lstrip (s : string) : string :=
  match s with
  | EmptyString => EmptyString
  | String c t => if is_space c then lstrip t else s
  end.

(** The first word of [s] and what follows it. *)
Fixpoint break_word (s : string) : string * string :=
  match s with
  | EmptyString => (EmptyString, EmptyString)
  | String c t =>
      if is_space c then (EmptyString, s)
      else let (w, r) := break_word t in (String c w, r)
  end.

(** [s.split(maxsplit=1)] *)
Definition split1 (s : string) : list string :=
  let s := lstrip s in
  if s =? "" then []
  else
    let (w, r) := break_word s in
    let r := lstrip r in
    if r =? "" then [w] else [w; r].

(** [l[1]] *)
Definition item1 (l : list string) : M string :=
  match l with
  | _ :: x :: _ => ret x
  | _ => raise {| cls := IndexError; str := "list index out of range" |}
  end.

Definition getai (fuel : nat) (message : Message) : M unit :=
  prompt <- (if Nat.ltb 1 (List.length (command message)) then
               item1 (split1 (message_text message))
             else ret "Get details of the image. Be accurate and write a short response.") ;;
  ai_process_handler fuel message prompt
    (Nat.ltb 1 (List.length (command message))) false (Some "image") "Scanning...".

Definition aicook (fuel : nat) (message : Message) : M unit :=
  ai_process_handler fuel message
    "Identify the baked good in the image and provide an accurate recipe."
    false true (Some "image") "Cooking...".

Definition aiseller (fuel : nat) (message : Message) : M unit :=
  if Nat.ltb 1 (List.length (command message)) then
    target <- item1 (split1 (message_text message)) ;;
    ai_process_handler fuel message
      ("Generate a marketing description for the product." ++ nl
       ++ "Target Audience: " ++ target)
      false false (Some "image") "Generating description..."
  else
    edit_text ("Usage: " ++ prefix env ++ "aiseller [target audience] [Reply to an image]")
              None.

Definition transcribe (fuel : nat) (message : Message) : M unit :=
  prompt <- (if Nat.ltb 1 (List.length (command message)) then
               item1 (split1 (message_text message))
             else ret "Transcribe it. Write only the transcription text.") ;;
  ai_process_handler fuel message prompt
    (Nat.ltb 1 (List.length (command message))) false (Some "audio") "Transcribing...".

Definition pr_command (fuel : nat) (message : Message) : M unit :=
  let args := split1 (message_text message) in
  let show_prompt := Nat.ltb 1 (List.length args) in
  prompt <- (if show_prompt then item1 args
             else ret "Shortly summarize the content and details of the file.") ;;
  ai_process_handler fuel message prompt show_prompt false None "Processing...".

End Handler.

(** ** Notions used in the statements *)

(** The calls of a wait of [n] polls on the files [fs 0], [fs 1], ... *)
Definition poll_calls (fs : nat -> File) (n : nat) : list event :=
  flat_map (fun k => [EvSleep 5; EvGetFile (name (fs k))]) (seq 0 n).

(** The outcome of [x <- m ;; ret (f x)], given that of [m]. *)
Definition omap {A B : Type} (f : A -> B) (o : outcome A) : outcome B :=
  match o with
  | Ret a => Ret (f a)
  | Raise e => Raise e
  | Pending => Pending
  end.

(** The errors on which the loop sleeps and goes on: caught by
    [except Exception], not an unsupported-MIME message, and holding one
    of the transient signatures. *)
Definition retried (e : exn) : bool :=
  is_Exception e
  && negb (mime_unsupported (PyStr.lower (str e)))
  && transient (PyStr.lower (str e)).

(** [m] extends the log, by at most [k] calls to the model. *)
Definition gen_bound {A : Type} (k : nat) (m : M A) : Prop :=
  forall w, exists l, snd (m w) = extend l w /\ calls is_generate l <= k.

(** [m] only adds calls to the log; the files on disk stay as they are. *)
Definition extends {A : Type} (m : M A) : Prop :=
  forall w, exists l, snd (m w) = extend l w.


(** ** Concrete scenarios *)

Module Scenario.

Definition tmp : string := "downloads/voice.ogg".

Definition handle (st : string) : File := {| name := "files/abc"; state_name := st |}.

Definition quota_error : exn :=
  {| cls := OtherException; str := "429 Quota exceeded for this model" |}.

(** An unsupported-MIME error whose message also holds the word quota. *)
Definition mime_quota_error : exn :=
  {| cls := OtherException;
     str := "400 The mimeType parameter application/x-quota is not supported" |}.

Definition good : Response :=
  {| candidates := Val [ {| finish_reason := "STOP" |} ]; text := Val "hello" |}.

Definition silent : Response :=
  {| candidates := Val [ {| finish_reason := "STOP" |} ]; text := PyNone |}.

Definition empty : Response := {| candidates := Val []; text := Absent |}.

(** A well-behaved environment, parameterised by the answers of the
    inference call, of the polled file state and of [os.remove]. *)
Definition make
    (gen : nat -> exn + Response) (st : nat -> string) (rm : option exn) : Env :=
  {| prefix := ".";
     format_exc := fun e => str e;
     chat := fun _ => None;
     download := fun _ fs => (inr (Some tmp), tmp :: fs);
     image_open := fun p => inr {| img_path := p |};
     image_verify := fun _ => None;
     upload_file := fun _ => inr (handle "PROCESSING");
     get_file := fun k n => inr {| name := n; state_name := st k |};
     generate_content := fun k _ _ => gen k;
     os_remove := fun _ => rm |}.

Definition ready_after (n : nat) (k : nat) : string :=
  if Nat.ltb k n then "PROCESSING" else "READY".

Definition failed_after (n : nat) (k : nat) : string :=
  if Nat.ltb k n then "PROCESSING" else "FAILED".

(** quota, quota, success *)
Definition gen_qqs (k : nat) : exn + Response :=
  if Nat.ltb k 2 then inl quota_error else inr good.

Definition env_qqs : Env := make gen_qqs (ready_after 1) None.

(** quota on every call *)
Definition env_quota : Env := make (fun _ => inl quota_error) (ready_after 1) None.

Definition env_mime_quota : Env :=
  make (fun _ => inl mime_quota_error) (ready_after 1) None.

Definition env_empty : Env := make (fun _ => inr empty) (ready_after 1) None.

Definition env_failed : Env := make (fun _ => inr good) (failed_after 2) None.

Definition env_stuck_file : Env :=
  make (fun _ => inr good) (ready_after 1)
       (Some {| cls := OtherException; str := "Permission denied" |}).

Definition w0 : World := {| files := []; log := [] |}.

Definition voice_reply : Reply :=
  {| photo := None; audio := None; voice := Some {| file_id := "v1" |};
     video := None; video_note := None; document := None |}.

Definition video_note_reply : Reply :=
  {| photo := None; audio := None; voice := None;
     video := None; video_note := Some {| file_id := "n1" |}; document := None |}.

Definition voice_message : Message :=
  {| reply_to_message := Some voice_reply;
     command := ["pr"];
     message_text := ".pr" |}.

Definition input0 : list part := [PFile (handle "READY"); PText "Summarize"].

(** A text of [n] characters. *)
Definition text_of_length (n : nat) : string :=
  string_of_list_ascii (repeat "a"%char n).

(** Variations of an environment. *)
Definition with_chat (e : Env) (c : nat -> option exn) : Env :=
  {| prefix := prefix e; format_exc := format_exc e; chat := c;
     download := download e; image_open := image_open e;
     image_verify := image_verify e; upload_file := upload_file e;
     get_file := get_file e; generate_content := generate_content e;
     os_remove := os_remove e |}.

Definition with_download
    (e : Env) (d : Reply -> list string -> (exn + option string) * list string) : Env :=
  {| prefix := prefix e; format_exc := format_exc e; chat := chat e;
     download := d; image_open := image_open e;
     image_verify := image_verify e; upload_file := upload_file e;
     get_file := get_file e; generate_content := generate_content e;
     os_remove := os_remove e |}.

Definition with_verify (e : Env) (v : Image -> option exn) : Env :=
  {| prefix := prefix e; format_exc := format_exc e; chat := chat e;
     download := download e; image_open := image_open e;
     image_verify := v; upload_file := upload_file e;
     get_file := get_file e; generate_content := generate_content e;
     os_remove := os_remove e |}.

Definition truncated_image : exn :=
  {| cls := OtherException; str := "Truncated File Read" |}.

Definition bad_request : exn :=
  {| cls := ValueError; str := "Unknown field for Part" |}.

Definition interrupt : exn := {| cls := BaseOnly; str := "KeyboardInterrupt" |}.

Definition forbidden : exn :=
  {| cls := OtherException; str := "[403 MESSAGE_AUTHOR_REQUIRED]" |}.

Definition network_down : exn :=
  {| cls := OtherException; str := "Connection lost" |}.

Definition env_good : Env := make (fun _ => inr good) (ready_after 1) None.

Definition env_corrupt : Env := with_verify env_good (fun _ => Some truncated_image).

Definition env_bad_request : Env :=
  make (fun _ => inl bad_request) (ready_after 1) None.

Definition env_interrupt : Env := make (fun _ => inl interrupt) (ready_after 1) None.

Definition env_processing_forever : Env :=
  make (fun _ => inr good) (fun _ => "PROCESSING") None.

Definition env_active : Env :=
  make (fun _ => inr good)
       (fun k => if Nat.ltb k 1 then "PROCESSING" else "ACTIVE") None.

(** The first chat call fails. *)
Definition env_chat_down : Env :=
  with_chat env_good (fun k => if Nat.eqb k 0 then Some forbidden else None).

Definition env_no_download : Env := with_download env_good (fun _ fs => (inr None, fs)).

Definition env_download_fails : Env :=
  with_download env_good (fun _ fs => (inl network_down, fs)).

Definition photo_reply : Reply :=
  {| photo := Some {| file_id := "p1" |}; audio := None; voice := None;
     video := None; video_note := None; document := None |}.

Definition video_reply : Reply :=
  {| photo := None; audio := None; voice := None;
     video := Some {| file_id := "m1" |}; video_note := None; document := None |}.

Definition bare_message : Message :=
  {| reply_to_message := None; command := ["getai"]; message_text := ".getai" |}.

Definition video_message : Message :=
  {| reply_to_message := Some video_reply;
     command := ["getai"];
     message_text := ".getai" |}.

Definition photo_message : Message :=
  {| reply_to_message := Some photo_reply;
     command := ["getai"];
     message_text := ".getai" |}.

Definition on_disk : World := {| files := [tmp]; log := [] |}.


(** The world once the voice message on disk has been uploaded. *)
Definition uploaded : World :=
  {| files := [tmp];
     log := [EvUpload tmp; EvSleep 5; EvGetFile "files/abc";
             EvSleep 5; EvGetFile "files/abc"] |}.

Definition voice_input : list part := [PFile (handle "READY"); PText "Describe"].

(** Empty results, and the first chat call fails with a 403. *)
Definition env_empty_chat_down : Env :=
  with_chat env_empty (fun k => if Nat.eqb k 0 then Some forbidden else None).

Definition seller_message : Message :=
  {| reply_to_message := Some photo_reply;
     command := ["aiseller"];
     message_text := ".aiseller" |}.


End Scenario.

(** * Properties *)

(** ** Worlds and logs *)

Lemma extend_extend (l1 l2 : list event) (w : World) :
  extend l2 (extend l1 w) = extend (l1 ++ l2)%list w.
Proof. unfold extend; simpl. now rewrite <- app_assoc. Qed.

Lemma extend_nil (w : World) : extend [] w = w.
Proof. destruct w; unfold extend; simpl. now rewrite app_nil_r. Qed.

Lemma calls_app (kind : event -> bool) (l1 l2 : list event) :
  calls kind (l1 ++ l2)%list = calls kind l1 + calls kind l2.
Proof. unfold calls. now rewrite filter_app, length_app. Qed.

Lemma calls_extend (kind : event -> bool) (l : list event) (w : World) :
  calls kind (log (extend l w)) = calls kind (log w) + calls kind l.
Proof. apply calls_app. Qed.

(** ** Attachment classifier *)

Lemma truthy_py_or (a b : pyval) : truthy (py_or a b) = truthy a || truthy b.
Proof. unfold py_or. destruct (truthy a) eqn:E; simpl; auto. Qed.

Lemma truthy_of_option (o : option Media) : truthy (of_option o) = present o.
Proof. now destruct o. Qed.

Lemma present_true (o : option Media) : present o = true <-> o <> None.
Proof. destruct o; simpl; split; congruence. Qed.

Lemma present_false (o : option Media) : present o = false <-> o = None.
Proof. destruct o; simpl; split; congruence. Qed.

(** With no expected category the classifier looks at six accessors. *)
Lemma valid_file_absent (reply : Reply) :
  truthy (_valid_file reply None)
  = present (photo reply) || present (audio reply) || present (voice reply)
    || present (video reply) || present (video_note reply)
    || present (document reply).
Proof.
  unfold _valid_file.
  rewrite !truthy_py_or, !truthy_of_option, !orb_assoc. reflexivity.
Qed.

(** C4, as stated, fails: a message that carries only a video note is
    classified as valid although it carries none of photo, audio, voice,
    video or document. *)
Lemma C4_video_note_only_is_valid :
  ~ (truthy (_valid_file Scenario.video_note_reply None) = true
     <-> photo Scenario.video_note_reply <> None
         \/ audio Scenario.video_note_reply <> None
         \/ voice Scenario.video_note_reply <> None
         \/ video Scenario.video_note_reply <> None
         \/ document Scenario.video_note_reply <> None).
Proof.
  intros [H _]. specialize (H eq_refl). simpl in H.
  repeat (destruct H as [H | H]; [now apply H |]). now apply H.
Qed.

(** C4 (amended): for every referenced message, classification with an
    absent expected category is true if and only if the message carries
    one of photo, audio, voice, video, video note or document. *)
Theorem C4_valid_file_absent_category (reply : Reply) :
  truthy (_valid_file reply None) = true
  <-> photo reply <> None \/ audio reply <> None \/ voice reply <> None
      \/ video reply <> None \/ video_note reply <> None
      \/ document reply <> None.
Proof.
  rewrite valid_file_absent, !orb_true_iff, !present_true. tauto.
Qed.

(** ** Upload and poll *)

Lemma poll_calls_S (fs : nat -> File) (n : nat) :
  poll_calls fs (S n)
  = ([EvSleep 5; EvGetFile (name (fs 0))] ++ poll_calls (fun k => fs (S k)) n)%list.
Proof.
  unfold poll_calls. simpl. do 2 f_equal.
  rewrite <- seq_shift, flat_map_concat_map, map_map, <- flat_map_concat_map.
  reflexivity.
Qed.

Lemma poll_terminal (env : Env) (fuel : nat) (f : File) (w : World) :
  state_name f <> "PROCESSING" -> poll env fuel f w = (Ret f, w).
Proof.
  intros H. apply String.eqb_neq in H.
  destruct fuel; simpl; rewrite H; reflexivity.
Qed.

(** While the service answers PROCESSING the loop sleeps 5 seconds and
    asks again; it stops at the first other state. *)
Lemma poll_run (env : Env) :
  forall (n fuel : nat) (fs : nat -> File) (w : World),
    (forall k, k < n ->
       state_name (fs k) = "PROCESSING"
       /\ get_file env (calls is_get_file (log w) + k) (name (fs k)) = inr (fs (S k))) ->
    state_name (fs n) <> "PROCESSING" ->
    n <= fuel ->
    poll env fuel (fs 0) w = (Ret (fs n), extend (poll_calls fs n) w).
Proof.
  induction n as [| n IH]; intros fuel fs w Hproc Hend Hfuel.
  - rewrite poll_terminal by assumption.
    unfold poll_calls; simpl. now rewrite extend_nil.
  - destruct fuel as [| fuel]; [lia |].
    destruct (Hproc 0 (Nat.lt_0_succ n)) as [H0 G0].
    rewrite Nat.add_0_r in G0.
    simpl. rewrite H0. simpl.
    unfold bind, sleep, genai_get_file, record.
    rewrite calls_extend. simpl. rewrite Nat.add_0_r, G0. simpl.
    rewrite extend_extend.
    rewrite (IH fuel (fun k => fs (S k)) (extend ([EvSleep 5] ++ [EvGetFile (name (fs 0))]) w)).
    + rewrite extend_extend, poll_calls_S. reflexivity.
    + intros k Hk. destruct (Hproc (S k)) as [Hs Hg]; [lia |].
      split; [assumption |].
      rewrite calls_extend.
      replace (calls is_get_file (log w)
               + calls is_get_file ([EvSleep 5] ++ [EvGetFile (name (fs 0))]) + k)
        with (calls is_get_file (log w) + S k)
        by (unfold calls; simpl; lia).
      assumption.
    + exact Hend.
    + lia.
Qed.

Lemma upload_file_run (env : Env) (fuel : nat) (path file_type : string)
    (w : World) (fs : nat -> File) (n : nat) :
  upload_file env path = inr (fs 0) ->
  (forall k, k < n ->
     state_name (fs k) = "PROCESSING"
     /\ get_file env (calls is_get_file (log w) + k) (name (fs k)) = inr (fs (S k))) ->
  state_name (fs n) <> "PROCESSING" ->
  n <= fuel ->
  _upload_file env fuel path file_type w
  = (if state_name (fs n) =? "FAILED" then
       Raise {| cls := ValueError;
                str := PyStr.capitalize file_type ++ " failed to process" |}
     else Ret (fs n),
     extend (EvUpload path :: poll_calls fs n) w).
Proof.
  intros Hup Hproc Hend Hfuel.
  unfold _upload_file, bind, genai_upload_file, record.
  rewrite Hup. simpl.
  rewrite (poll_run env n fuel fs (extend [EvUpload path] w)); try assumption.
  - rewrite extend_extend. simpl.
    destruct (state_name (fs n) =? "FAILED"); reflexivity.
  - intros k Hk. destruct (Hproc k Hk) as [Hs Hg]. split; [assumption |].
    rewrite calls_extend.
    replace (calls is_get_file (log w) + calls is_get_file [EvUpload path] + k)
      with (calls is_get_file (log w) + k) by (unfold calls; simpl; lia).
    assumption.
Qed.

(** C5: the upload-and-poll operation sleeps 5 seconds before every
    poll for as long as the state is PROCESSING; when the state becomes
    READY it returns the handle, when it becomes FAILED it raises the
    error named after the category (for a video, "Video failed to
    process"), and it uploads once and polls no further. *)
Theorem C5_upload_file_polls_until_terminal
    (env : Env) (fuel : nat) (path file_type : string)
    (w : World) (fs : nat -> File) (n : nat) :
  upload_file env path = inr (fs 0) ->
  (forall k, k < n ->
     state_name (fs k) = "PROCESSING"
     /\ get_file env (calls is_get_file (log w) + k) (name (fs k)) = inr (fs (S k))) ->
  state_name (fs n) = "READY" \/ state_name (fs n) = "FAILED" ->
  n <= fuel ->
  (state_name (fs n) = "READY" ->
   _upload_file env fuel path file_type w
   = (Ret (fs n), extend (EvUpload path :: poll_calls fs n) w))
  /\ (state_name (fs n) = "FAILED" ->
      _upload_file env fuel path file_type w
      = (Raise {| cls := ValueError;
                  str := PyStr.capitalize file_type ++ " failed to process" |},
         extend (EvUpload path :: poll_calls fs n) w))
  /\ PyStr.capitalize "video" ++ " failed to process" = "Video failed to process".
Proof.
  intros Hup Hproc Hterm Hfuel.
  assert (Hend : state_name (fs n) <> "PROCESSING")
    by (destruct Hterm as [H | H]; rewrite H; discriminate).
  pose proof (upload_file_run env fuel path file_type w fs n Hup Hproc Hend Hfuel) as R.
  repeat split.
  - intros H. rewrite R, H. reflexivity.
  - intros H. rewrite R, H. reflexivity.
Qed.

(** Two polls answer PROCESSING, the third FAILED: the video upload
    raises "Video failed to process" after exactly three sleeps of 5
    seconds. *)
Lemma C5_witness_failed_video :
  _upload_file Scenario.env_failed 3 Scenario.tmp "video" Scenario.w0
  = (Raise {| cls := ValueError; str := "Video failed to process" |},
     {| files := [];
        log := [EvUpload Scenario.tmp;
                EvSleep 5; EvGetFile "files/abc";
                EvSleep 5; EvGetFile "files/abc";
                EvSleep 5; EvGetFile "files/abc"] |}).
Proof.
  pose (fs := fun k : nat =>
                {| name := "files/abc";
                   state_name := match k with
                                 | 0 => "PROCESSING"
                                 | S j => Scenario.failed_after 2 j
                                 end |}).
  destruct (C5_upload_file_polls_until_terminal
              Scenario.env_failed 3 Scenario.tmp "video" Scenario.w0 fs 3)
    as (_ & Hfail & _).
  - reflexivity.
  - intros k Hk.
    destruct k as [| [| [| k]]]; [split; reflexivity .. | lia].
  - right; reflexivity.
  - lia.
  - exact (Hfail eq_refl).
Defined.

(** ** Input materializer *)

Lemma bind_ret_omap {A B : Type} (m : M A) (f : A -> B) (w : World) :
  (x <- m ;; ret (f x)) w = let (o, w') := m w in (omap f o, w').
Proof. unfold bind, ret. destruct (m w) as [[a | e |] w']; reflexivity. Qed.

(** C3: materialization dispatches on the attachment with the priority
    photo, video or video note, audio or voice, document whose path ends
    in ".pdf", other document.  It yields [prompt, image] for a photo,
    [prompt, handle] for a video, video note or PDF document, [handle,
    prompt] for audio, voice or another document, where the handle is what
    upload-and-poll returns; with no attachment of these kinds it raises
    the unsupported-file-type error. *)
Theorem C3_prepare_input_data_dispatch
    (env : Env) (fuel : nat) (reply : Reply) (path prompt : string) (w : World) :
  (photo reply <> None ->
   forall img, image_open env path = inr img -> image_verify env img = None ->
     prepare_input_data env fuel reply path prompt w
     = (Ret [PText prompt; PImage img], w))
  /\ (photo reply = None ->
      video reply <> None \/ video_note reply <> None ->
      prepare_input_data env fuel reply path prompt w
      = let (o, w') := _upload_file env fuel path "video" w in
        (omap (fun h => [PText prompt; PFile h]) o, w'))
  /\ (photo reply = None -> video reply = None -> video_note reply = None ->
      audio reply <> None \/ voice reply <> None ->
      prepare_input_data env fuel reply path prompt w
      = let (o, w') := _upload_file env fuel path "audio" w in
        (omap (fun h => [PFile h; PText prompt]) o, w'))
  /\ (photo reply = None -> video reply = None -> video_note reply = None ->
      audio reply = None -> voice reply = None ->
      document reply <> None -> PyStr.endswith path ".pdf" = true ->
      prepare_input_data env fuel reply path prompt w
      = let (o, w') := _upload_file env fuel path "PDF" w in
        (omap (fun h => [PText prompt; PFile h]) o, w'))
  /\ (photo reply = None -> video reply = None -> video_note reply = None ->
      audio reply = None -> voice reply = None ->
      document reply <> None -> PyStr.endswith path ".pdf" = false ->
      prepare_input_data env fuel reply path prompt w
      = let (o, w') := _upload_file env fuel path "document" w in
        (omap (fun h => [PFile h; PText prompt]) o, w'))
  /\ (photo reply = None -> video reply = None -> video_note reply = None ->
      audio reply = None -> voice reply = None -> document reply = None ->
      prepare_input_data env fuel reply path prompt w
      = (Raise {| cls := ValueError; str := "Unsupported file type" |}, w)).
Proof.
  unfold prepare_input_data.
  repeat split.
  - intros Hp img Hopen Hver. apply present_true in Hp. rewrite Hp.
    unfold bind. rewrite Hopen. simpl. rewrite Hver. reflexivity.
  - intros Hp Hv. apply present_false in Hp. rewrite Hp.
    assert (present (video reply) || present (video_note reply) = true) as ->
      by (rewrite orb_true_iff, !present_true; exact Hv).
    apply bind_ret_omap.
  - intros Hp Hv Hn Ha. rewrite Hp, Hv, Hn. simpl.
    assert (present (audio reply) || present (voice reply) = true) as ->
      by (rewrite orb_true_iff, !present_true; exact Ha).
    apply bind_ret_omap.
  - intros Hp Hv Hn Ha Ho Hd Hpdf. rewrite Hp, Hv, Hn, Ha, Ho, Hpdf. simpl.
    apply present_true in Hd. rewrite Hd. simpl.
    apply bind_ret_omap.
  - intros Hp Hv Hn Ha Ho Hd Hpdf. rewrite Hp, Hv, Hn, Ha, Ho, Hpdf. simpl.
    apply present_true in Hd. rewrite Hd. simpl.
    apply bind_ret_omap.
  - intros Hp Hv Hn Ha Ho Hd. rewrite Hp, Hv, Hn, Ha, Ho, Hd. reflexivity.
Qed.

(** A voice message is uploaded as audio and paired as [handle, prompt];
    a message without attachment is refused. *)
Lemma C3_witness_voice_and_none :
  prepare_input_data Scenario.env_qqs 5 Scenario.voice_reply Scenario.tmp
    "Summarize" Scenario.w0
  = (Ret [PFile (Scenario.handle "READY"); PText "Summarize"],
     {| files := [];
        log := [EvUpload Scenario.tmp;
                EvSleep 5; EvGetFile "files/abc";
                EvSleep 5; EvGetFile "files/abc"] |})
  /\ prepare_input_data Scenario.env_qqs 5
       {| photo := None; audio := None; voice := None;
          video := None; video_note := None; document := None |}
       Scenario.tmp "Summarize" Scenario.w0
     = (Raise {| cls := ValueError; str := "Unsupported file type" |}, Scenario.w0).
Proof.
  split.
  - destruct (C3_prepare_input_data_dispatch Scenario.env_qqs 5
                Scenario.voice_reply Scenario.tmp "Summarize" Scenario.w0)
      as (_ & _ & Haudio & _).
    rewrite Haudio; [reflexivity | reflexivity .. | right; discriminate].
  - destruct (C3_prepare_input_data_dispatch Scenario.env_qqs 5
                {| photo := None; audio := None; voice := None;
                   video := None; video_note := None; document := None |}
                Scenario.tmp "Summarize" Scenario.w0)
      as (_ & _ & _ & _ & _ & Hnone).
    apply Hnone; reflexivity.
Defined.

(** ** One turn of the retry loop *)

Lemma calls_extend_none (kind : event -> bool) (l : list event) (w : World) :
  calls kind l = 0 -> calls kind (log (extend l w)) = calls kind (log w).
Proof. intros H. rewrite calls_extend, H. apply Nat.add_0_r. Qed.

Section Turn.

Variable env : Env.
Variable config : option gen_config.
Variable expect_type : option string.
Variable input : list part.

Local Abbreviation gen w :=
  (generate_content env (calls is_generate (log w)) config input).

Local Abbreviation Gen := (EvGenerate config input).

(** A response with candidates leaves the loop. *)
Lemma attempt_break (w : World) (r : Response) :
  gen w = inr r -> no_candidates r = false ->
  attempt env config expect_type input w = (Ret (Break r), extend [Gen] w).
Proof.
  intros Hg Hc. unfold attempt, try_except, bind, model_generate_content, record.
  rewrite Hg. simpl. rewrite Hc. reflexivity.
Qed.

(** A response without candidates is reported and ends the handler. *)
Lemma attempt_no_candidates (w : World) (r : Response) :
  gen w = inr r -> no_candidates r = true ->
  chat env (calls is_chat (log w)) = None ->
  attempt env config expect_type input w
  = (Ret Return, extend [Gen; EvEdit "Could not generate response." None] w).
Proof.
  intros Hg Hc Hchat.
  unfold attempt, try_except, bind, model_generate_content, record.
  rewrite Hg. simpl. rewrite Hc.
  unfold edit_text, chat_call, record.
  rewrite calls_extend_none by reflexivity.
  rewrite Hchat. simpl. rewrite extend_extend. reflexivity.
Qed.

(** An exception outside [Exception] is not caught. *)
Lemma attempt_uncaught (w : World) (e : exn) :
  gen w = inl e -> is_Exception e = false ->
  attempt env config expect_type input w = (Raise e, extend [Gen] w).
Proof.
  intros Hg He. unfold attempt, try_except, bind, model_generate_content, record.
  rewrite Hg. simpl. rewrite He. reflexivity.
Qed.

(** Unsupported MIME type, no expected category: friendly message. *)
Lemma attempt_mime_friendly (w : World) (e : exn) :
  gen w = inl e -> is_Exception e = true ->
  mime_unsupported (PyStr.lower (str e)) = true ->
  expect_type = None ->
  chat env (calls is_chat (log w)) = None ->
  attempt env config expect_type input w
  = (Ret Return, extend [Gen; EvEdit "Invalid file type. Please try again." None] w).
Proof.
  intros Hg He Hm Ht Hchat.
  unfold attempt, try_except, bind, model_generate_content, record.
  rewrite Hg. simpl. rewrite He, Hm, Ht.
  unfold edit_text, chat_call, record.
  rewrite calls_extend_none by reflexivity.
  rewrite Hchat. simpl. rewrite extend_extend. reflexivity.
Qed.

(** Unsupported MIME type, expected category given: re-raised. *)
Lemma attempt_mime_reraise (w : World) (e : exn) (t : string) :
  gen w = inl e -> is_Exception e = true ->
  mime_unsupported (PyStr.lower (str e)) = true ->
  expect_type = Some t ->
  attempt env config expect_type input w = (Raise e, extend [Gen] w).
Proof.
  intros Hg He Hm Ht.
  unfold attempt, try_except, bind, model_generate_content, record.
  rewrite Hg. simpl. rewrite He, Hm, Ht. reflexivity.
Qed.

(** A transient error: sleep 2 seconds and go to the next turn, with
    the local variable [e] unbound again. *)
Lemma attempt_transient (w : World) (e : exn) :
  gen w = inl e -> is_Exception e = true ->
  mime_unsupported (PyStr.lower (str e)) = false ->
  transient (PyStr.lower (str e)) = true ->
  attempt env config expect_type input w
  = (Ret (Continue None), extend [Gen; EvSleep 2] w).
Proof.
  intros Hg He Hm Ht.
  unfold attempt, try_except, bind, model_generate_content, record.
  rewrite Hg. simpl. rewrite He, Hm, Ht.
  unfold sleep, record. simpl. rewrite extend_extend. reflexivity.
Qed.

(** Any other error is re-raised. *)
Lemma attempt_other (w : World) (e : exn) :
  gen w = inl e ->
  mime_unsupported (PyStr.lower (str e)) = false ->
  transient (PyStr.lower (str e)) = false ->
  attempt env config expect_type input w = (Raise e, extend [Gen] w).
Proof.
  intros Hg Hm Ht.
  unfold attempt, try_except, bind, model_generate_content, record.
  rewrite Hg. simpl. rewrite Hm, Ht.
  destruct (is_Exception e); reflexivity.
Qed.

End Turn.

(** ** Counting the calls to the model *)

Lemma gen_bound_weaken {A : Type} (k k' : nat) (m : M A) :
  k <= k' -> gen_bound k m -> gen_bound k' m.
Proof.
  intros Hk H w. destruct (H w) as (l & E & B). exists l. split; [assumption | lia].
Qed.

Lemma gen_bound_ret {A : Type} (a : A) : gen_bound 0 (ret a).
Proof. intros w. exists []. now rewrite extend_nil. Qed.

Lemma gen_bound_raise {A : Type} (e : exn) : gen_bound 0 (@raise A e).
Proof. intros w. exists []. now rewrite extend_nil. Qed.

Lemma gen_bound_bind {A B : Type} (k1 k2 : nat) (m : M A) (f : A -> M B) :
  gen_bound k1 m -> (forall a, gen_bound k2 (f a)) -> gen_bound (k1 + k2) (bind m f).
Proof.
  intros Hm Hf w. unfold bind.
  destruct (Hm w) as (l1 & E1 & B1).
  destruct (m w) as [[a | e |] w1]; simpl in E1; subst w1.
  - destruct (Hf a (extend l1 w)) as (l2 & E2 & B2).
    exists (l1 ++ l2)%list. rewrite E2, extend_extend, calls_app. split; [reflexivity | lia].
  - exists l1. split; [reflexivity | lia].
  - exists l1. split; [reflexivity | lia].
Qed.

Lemma gen_bound_try_except {A : Type} (k1 k2 : nat) (m : M A) (h : exn -> M A) :
  gen_bound k1 m -> (forall e, gen_bound k2 (h e)) ->
  gen_bound (k1 + k2) (try_except m h).
Proof.
  intros Hm Hh w. unfold try_except.
  destruct (Hm w) as (l1 & E1 & B1).
  destruct (m w) as [[a | e |] w1]; simpl in E1; subst w1.
  - exists l1. split; [reflexivity | lia].
  - destruct (Hh e (extend l1 w)) as (l2 & E2 & B2).
    exists (l1 ++ l2)%list. rewrite E2, extend_extend, calls_app. split; [reflexivity | lia].
  - exists l1. split; [reflexivity | lia].
Qed.

Lemma gen_bound_chat (env : Env) (ev : event) :
  is_generate ev = false -> gen_bound 0 (chat_call env ev).
Proof.
  intros H w. exists [ev]. unfold chat_call, record.
  split; [destruct (chat env _); reflexivity |].
  unfold calls; simpl. now rewrite H.
Qed.

Lemma gen_bound_sleep (n : nat) : gen_bound 0 (sleep n).
Proof. intros w. now exists [EvSleep n]. Qed.

Lemma gen_bound_generate (env : Env) (config : option gen_config) (input : list part) :
  gen_bound 1 (model_generate_content env config input).
Proof.
  intros w. exists [EvGenerate config input].
  unfold model_generate_content, record.
  split; [destruct (generate_content env _ _ _); reflexivity | reflexivity].
Qed.

(** ** The retry loop *)

Lemma retried_inv (e : exn) :
  retried e = true ->
  is_Exception e = true
  /\ mime_unsupported (PyStr.lower (str e)) = false
  /\ transient (PyStr.lower (str e)) = true.
Proof.
  unfold retried. rewrite !andb_true_iff, negb_true_iff. tauto.
Qed.

Section Loop.

Variable env : Env.
Variable config : option gen_config.
Variable expect_type : option string.
Variable input : list part.

Local Abbreviation gen w :=
  (generate_content env (calls is_generate (log w)) config input).

Local Abbreviation Gen := (EvGenerate config input).

Local Abbreviation loop n v := (attempts env n v config expect_type input).

Lemma attempts_S (n : nat) (v : option exn) (w : World) :
  loop (S n) v w
  = match attempt env config expect_type input w with
    | (Ret (Break r), w') => (Ret (Got r), w')
    | (Ret Return, w') => (Ret Returned, w')
    | (Ret (Continue v'), w') => loop n v' w'
    | (Raise e, w') => (Raise e, w')
    | (Pending, w') => (Pending, w')
    end.
Proof.
  simpl. unfold bind.
  destruct (attempt env config expect_type input w) as [[[r | | v'] | e |] w'];
    reflexivity.
Qed.

(** Every turn calls the model at most once (exactly once, in fact). *)
Lemma attempt_bound : gen_bound 1 (attempt env config expect_type input).
Proof.
  unfold attempt.
  apply (gen_bound_try_except 1 0).
  - apply (gen_bound_bind 1 0); [apply gen_bound_generate |].
    intros r. destruct (no_candidates r); [| apply gen_bound_ret].
    apply (gen_bound_bind 0 0); [apply gen_bound_chat; reflexivity |].
    intros _. apply gen_bound_ret.
  - intros e. destruct (is_Exception e); [| apply gen_bound_raise].
    destruct (mime_unsupported _).
    + destruct expect_type; [apply gen_bound_raise |].
      apply (gen_bound_bind 0 0); [apply gen_bound_chat; reflexivity |].
      intros _. apply gen_bound_ret.
    + destruct (transient _); [| apply gen_bound_raise].
      apply (gen_bound_bind 0 0); [apply gen_bound_sleep |].
      intros _. apply gen_bound_ret.
Qed.

Lemma attempts_bound (n : nat) (v : option exn) : gen_bound n (loop n v).
Proof.
  revert v. induction n as [| n IH]; intros v.
  - simpl. destruct v; apply gen_bound_raise.
  - simpl. apply (gen_bound_bind 1 n); [apply attempt_bound |].
    intros [r | | v']; [apply gen_bound_weaken with 0; [lia | apply gen_bound_ret] ..
                        | apply IH].
Qed.

End Loop.

(** A retried error: sleep 2 seconds, then the remaining turns. *)
Lemma attempts_retried
    (env : Env) (config : option gen_config) (expect_type : option string)
    (input : list part) (n : nat) (v : option exn) (w : World) (e : exn) :
  generate_content env (calls is_generate (log w)) config input = inl e ->
  retried e = true ->
  attempts env (S n) v config expect_type input w
  = attempts env n None config expect_type input
      (extend [EvGenerate config input; EvSleep 2] w).
Proof.
  intros Hg Hr. apply retried_inv in Hr. destruct Hr as (He & Hm & Ht).
  rewrite attempts_S, (attempt_transient _ _ _ _ _ e) by assumption.
  reflexivity.
Qed.

(** C1, as stated, fails: an error whose lower-cased message holds
    "quota" and also the unsupported-MIME signature is not retried; the
    loop makes one attempt, does not sleep, and ends the handler with the
    invalid-file-type message. *)
Lemma C1_quota_inside_mime_error_not_retried :
  PyStr.any_in ["403"; "429"; "permission"; "quota"]
    (PyStr.lower (str Scenario.mime_quota_error)) = true
  /\ generate_content Scenario.env_mime_quota 0 None Scenario.input0
     = inl Scenario.mime_quota_error
  /\ retry_loop Scenario.env_mime_quota None None Scenario.input0 Scenario.w0
     = (Ret Returned,
        {| files := [];
           log := [EvGenerate None Scenario.input0;
                   EvEdit "Invalid file type. Please try again." None] |})
  /\ calls is_sleep
       (log (snd (retry_loop Scenario.env_mime_quota None None
                    Scenario.input0 Scenario.w0))) = 0
  /\ calls is_generate
       (log (snd (retry_loop Scenario.env_mime_quota None None
                    Scenario.input0 Scenario.w0))) = 1.
Proof. repeat split. Qed.

(** C1 (amended): the loop makes at most 3 attempts; an attempt that
    raises an error which does not carry the unsupported-MIME signature
    and whose lower-cased message holds "403", "429", "permission" or
    "quota" is followed by a sleep of 2 seconds and by the remaining
    turns of the loop; on (quota, quota, success) the loop makes exactly
    3 attempts with a sleep of 2 seconds after the first and after the
    second and returns the successful result; an error with neither
    signature is re-raised at once, with no further attempt. *)
Theorem C1_retry_policy
    (env : Env) (config : option gen_config) (expect_type : option string)
    (input : list part) :
  (forall w, exists l,
      snd (retry_loop env config expect_type input w) = extend l w
      /\ calls is_generate l <= 3)
  /\ (forall n v w e,
        generate_content env (calls is_generate (log w)) config input = inl e ->
        retried e = true ->
        attempts env (S n) v config expect_type input w
        = attempts env n None config expect_type input
            (extend [EvGenerate config input; EvSleep 2] w))
  /\ (forall w e1 e2 r,
        generate_content env (calls is_generate (log w)) config input = inl e1 ->
        generate_content env (calls is_generate (log w) + 1) config input = inl e2 ->
        generate_content env (calls is_generate (log w) + 2) config input = inr r ->
        retried e1 = true -> retried e2 = true -> no_candidates r = false ->
        retry_loop env config expect_type input w
        = (Ret (Got r),
           extend [EvGenerate config input; EvSleep 2;
                   EvGenerate config input; EvSleep 2;
                   EvGenerate config input] w))
  /\ (forall n v w e,
        generate_content env (calls is_generate (log w)) config input = inl e ->
        mime_unsupported (PyStr.lower (str e)) = false ->
        transient (PyStr.lower (str e)) = false ->
        attempts env (S n) v config expect_type input w
        = (Raise e, extend [EvGenerate config input] w)).
Proof.
  split; [| split; [intros n v w e; apply attempts_retried | split]].
  - intros w. apply attempts_bound.
  - intros w e1 e2 r H1 H2 H3 R1 R2 Hc. unfold retry_loop.
    rewrite (attempts_retried _ _ _ _ _ _ _ e1) by assumption.
    rewrite (attempts_retried _ _ _ _ _ _ _ e2);
      [| rewrite calls_extend; exact H2 | assumption].
    rewrite attempts_S, (attempt_break _ _ _ _ _ r);
      [| rewrite !calls_extend;
         match goal with
         | |- generate_content _ ?k _ _ = _ =>
             replace k with (calls is_generate (log w) + 2)
               by (unfold calls; simpl; lia)
         end; exact H3
       | assumption].
    rewrite !extend_extend. reflexivity.
  - intros n v w e Hg Hm Ht.
    rewrite attempts_S, (attempt_other _ _ _ _ _ e) by assumption.
    reflexivity.
Qed.

(** On (quota, quota, success): three attempts, two sleeps, the result. *)
Lemma C1_witness_quota_quota_success :
  retry_loop Scenario.env_qqs None None Scenario.input0 Scenario.w0
  = (Ret (Got Scenario.good),
     {| files := [];
        log := [EvGenerate None Scenario.input0; EvSleep 2;
                EvGenerate None Scenario.input0; EvSleep 2;
                EvGenerate None Scenario.input0] |}).
Proof.
  destruct (C1_retry_policy Scenario.env_qqs None None Scenario.input0)
    as (_ & _ & H & _).
  exact (H Scenario.w0 Scenario.quota_error Scenario.quota_error Scenario.good
           eq_refl eq_refl eq_refl eq_refl eq_refl eq_refl).
Defined.

(** Three transient errors in a row: the [else] clause of the loop reads
    the local variable [e], which every [except] clause has unbound on
    leaving, so the loop raises [UnboundLocalError]. *)
Lemma attempts_exhausted
    (env : Env) (config : option gen_config) (expect_type : option string)
    (input : list part) (w : World) (e1 e2 e3 : exn) :
  generate_content env (calls is_generate (log w)) config input = inl e1 ->
  generate_content env (calls is_generate (log w) + 1) config input = inl e2 ->
  generate_content env (calls is_generate (log w) + 2) config input = inl e3 ->
  retried e1 = true -> retried e2 = true -> retried e3 = true ->
  retry_loop env config expect_type input w
  = (Raise (unbound_local "e"),
     extend [EvGenerate config input; EvSleep 2;
             EvGenerate config input; EvSleep 2;
             EvGenerate config input; EvSleep 2] w).
Proof.
  intros H1 H2 H3 R1 R2 R3. unfold retry_loop.
  rewrite (attempts_retried _ _ _ _ _ _ _ e1) by assumption.
  rewrite (attempts_retried _ _ _ _ _ _ _ e2);
    [| rewrite calls_extend; exact H2 | assumption].
  rewrite (attempts_retried _ _ _ _ _ _ _ e3);
    [| rewrite !calls_extend;
       match goal with
       | |- generate_content _ ?k _ _ = _ =>
           replace k with (calls is_generate (log w) + 2)
             by (unfold calls; simpl; lia)
       end; exact H3
     | assumption].
  rewrite !extend_extend. reflexivity.
Qed.

(** C2: with a transient error on each of the 3 attempts the loop makes
    no 4th attempt, but what it raises is not the last transient error:
    [raise e] finds [e] unbound and raises [UnboundLocalError], which is
    what the handler then reports. *)
Theorem C2_exhausted_retries_raise_unbound_local :
  retry_loop Scenario.env_quota None None Scenario.input0 Scenario.w0
  = (Raise (unbound_local "e"),
     {| files := [];
        log := [EvGenerate None Scenario.input0; EvSleep 2;
                EvGenerate None Scenario.input0; EvSleep 2;
                EvGenerate None Scenario.input0; EvSleep 2] |})
  /\ unbound_local "e" <> Scenario.quota_error
  /\ ai_process_handler Scenario.env_quota 5 Scenario.voice_message "Summarize"
       false false None "Processing..." Scenario.w0
     = (Ret tt,
        {| files := [];
           log := [EvEdit "Processing..." None; EvDownload;
                   EvUpload Scenario.tmp;
                   EvSleep 5; EvGetFile "files/abc";
                   EvSleep 5; EvGetFile "files/abc";
                   EvGenerate None Scenario.input0; EvSleep 2;
                   EvGenerate None Scenario.input0; EvSleep 2;
                   EvGenerate None Scenario.input0; EvSleep 2;
                   EvEdit "Error: cannot access local variable 'e' where it is not associated with a value" None;
                   EvRemove Scenario.tmp] |}).
Proof.
  split; [| split].
  - apply (attempts_exhausted Scenario.env_quota None None Scenario.input0
             Scenario.w0 Scenario.quota_error Scenario.quota_error
             Scenario.quota_error); reflexivity.
  - discriminate.
  - vm_compute. reflexivity.
Qed.

(** C6: when an attempt raises an error whose message shows an
    unsupported MIME type, the handler ends at once with the
    invalid-file-type message when no expected category was given, and
    re-raises the error when one was given; in both cases the model is
    not called again, whatever the number of turns left. *)
Theorem C6_unsupported_mime_type
    (env : Env) (config : option gen_config) (expect_type : option string)
    (input : list part) (n : nat) (v : option exn) (w : World) (e : exn) :
  generate_content env (calls is_generate (log w)) config input = inl e ->
  is_Exception e = true ->
  mime_unsupported (PyStr.lower (str e)) = true ->
  (expect_type = None ->
   chat env (calls is_chat (log w)) = None ->
   attempts env (S n) v config expect_type input w
   = (Ret Returned,
      extend [EvGenerate config input;
              EvEdit "Invalid file type. Please try again." None] w))
  /\ (forall t, expect_type = Some t ->
      attempts env (S n) v config expect_type input w
      = (Raise e, extend [EvGenerate config input] w)).
Proof.
  intros Hg He Hm. split.
  - intros Ht Hchat.
    rewrite attempts_S, (attempt_mime_friendly _ _ _ _ _ e) by assumption.
    reflexivity.
  - intros t Ht.
    rewrite attempts_S, (attempt_mime_reraise _ _ _ _ _ e t) by assumption.
    reflexivity.
Qed.

(** The same unsupported-MIME error with and without an expected
    category. *)
Lemma C6_witness_with_and_without_category :
  retry_loop Scenario.env_mime_quota None None Scenario.input0 Scenario.w0
  = (Ret Returned,
     {| files := [];
        log := [EvGenerate None Scenario.input0;
                EvEdit "Invalid file type. Please try again." None] |})
  /\ retry_loop Scenario.env_mime_quota None (Some "image") Scenario.input0
       Scenario.w0
     = (Raise Scenario.mime_quota_error,
        {| files := []; log := [EvGenerate None Scenario.input0] |}).
Proof.
  split.
  - destruct (C6_unsupported_mime_type Scenario.env_mime_quota None None
                Scenario.input0 2 None Scenario.w0 Scenario.mime_quota_error
                eq_refl eq_refl eq_refl) as [H _].
    exact (H eq_refl eq_refl).
  - destruct (C6_unsupported_mime_type Scenario.env_mime_quota None (Some "image")
                Scenario.input0 2 None Scenario.w0 Scenario.mime_quota_error
                eq_refl eq_refl eq_refl) as [_ H].
    exact (H "image" eq_refl).
Defined.

Lemma no_candidates_iff (r : Response) :
  no_candidates r = true
  <-> candidates r = Absent \/ candidates r = PyNone \/ candidates r = Val [].
Proof.
  unfold no_candidates.
  destruct (candidates r) as [| | [| c cs]]; split; intros H; auto;
    try discriminate; destruct H as [H | [H | H]]; discriminate.
Qed.

(** C7: when the call succeeds but the response has an empty or absent
    candidate list, the loop reports "Could not generate response.",
    makes no further attempt and returns from the handler: the [try]
    block ends normally, without delivering an answer and without
    raising. *)
Theorem C7_no_candidates_reported
    (env : Env) (config : option gen_config) (expect_type : option string)
    (input : list part) (n : nat) (v : option exn) (w : World) (r : Response) :
  generate_content env (calls is_generate (log w)) config input = inr r ->
  candidates r = Absent \/ candidates r = PyNone \/ candidates r = Val [] ->
  chat env (calls is_chat (log w)) = None ->
  attempts env (S n) v config expect_type input w
  = (Ret Returned,
     extend [EvGenerate config input;
             EvEdit "Could not generate response." None] w)
  /\ (forall fuel reply path prompt show_prompt (cook_mode : bool) w0,
        config = (if cook_mode then Some COOK_GEN_CONFIG else None) ->
        prepare_input_data env fuel reply path prompt w0 = (Ret input, w) ->
        answer env fuel reply path prompt show_prompt cook_mode expect_type w0
        = (Ret tt,
           extend [EvGenerate config input;
                   EvEdit "Could not generate response." None] w)).
Proof.
  intros Hg Hc Hchat. apply no_candidates_iff in Hc.
  assert (L : forall m u,
             attempts env (S m) u config expect_type input w
             = (Ret Returned,
                extend [EvGenerate config input;
                        EvEdit "Could not generate response." None] w)).
  { intros m u.
    rewrite attempts_S, (attempt_no_candidates _ _ _ _ _ r) by assumption.
    reflexivity. }
  split; [apply L |].
  intros fuel reply path prompt show_prompt cook_mode w0 Hcfg Hprep.
  unfold answer, bind. rewrite Hprep, <- Hcfg.
  unfold retry_loop. rewrite L. reflexivity.
Qed.

(** A response with an empty candidate list on the first attempt. *)
Lemma C7_witness_empty_candidates :
  retry_loop Scenario.env_empty None None Scenario.input0 Scenario.w0
  = (Ret Returned,
     {| files := [];
        log := [EvGenerate None Scenario.input0;
                EvEdit "Could not generate response." None] |}).
Proof.
  destruct (C7_no_candidates_reported Scenario.env_empty None None
              Scenario.input0 2 None Scenario.w0 Scenario.empty
              eq_refl (or_intror (or_intror eq_refl)) eq_refl) as [H _].
  exact H.
Defined.

(** ** Slices of a string *)

Lemma substring_nil (i c : nat) : substring i c "" = "".
Proof. destruct i, c; reflexivity. Qed.

Lemma substring_split (s : string) :
  forall a b, substring 0 a s ++ substring a b s = substring 0 (a + b) s.
Proof.
  induction s as [| ch s IH]; intros a b.
  - now rewrite !substring_nil.
  - destruct a as [| a]; simpl.
    + reflexivity.
    + f_equal. apply IH.
Qed.

Lemma substring_all (s : string) :
  forall n, String.length s <= n -> substring 0 n s = s.
Proof.
  induction s as [| ch s IH]; intros n Hn.
  - apply substring_nil.
  - destruct n as [| n]; simpl in *; [lia |]. f_equal. apply IH. lia.
Qed.

Lemma substring_length (s : string) :
  forall i c, String.length (substring i c s) = Nat.min c (String.length s - i).
Proof.
  induction s as [| ch s IH]; intros i c.
  - rewrite substring_nil. simpl. now rewrite Nat.min_0_r.
  - destruct i as [| i].
    + destruct c as [| c]; simpl; [reflexivity |].
      rewrite IH, Nat.sub_0_r. reflexivity.
    + simpl. apply IH.
Qed.

Lemma concat_empty_cons (x : string) (l : list string) :
  String.concat "" (x :: l) = x ++ String.concat "" l.
Proof.
  destruct l as [| y l]; simpl; [| reflexivity].
  induction x as [| ch x IH]; simpl; [reflexivity | now rewrite <- IH].
Qed.

(** The first [k] slices of width [c] make up the first [k * c]
    characters. *)
Lemma concat_slices (s : string) (c : nat) :
  forall k,
    String.concat "" (map (fun i => substring i c s) (map (fun j => j * c) (seq 0 k)))
    = substring 0 (k * c) s.
Proof.
  induction k as [| k IH].
  - simpl. destruct s; reflexivity.
  - rewrite seq_S, !map_app. simpl.
    assert (G : forall l x, String.concat "" (l ++ [x])%list
                            = String.concat "" l ++ x).
    { induction l as [| y l IHl]; intros x.
      - simpl. reflexivity.
      - change ((y :: l) ++ [x])%list with (y :: (l ++ [x]))%list.
        rewrite !concat_empty_cons, IHl.
        clear. induction y as [| ch y IHy]; simpl; [reflexivity | now rewrite IHy]. }
    rewrite G, IH, substring_split. f_equal. lia.
Qed.

Lemma range_len_covers (c len : nat) :
  0 < c -> len <= PyStr.range_len 0 len c * c.
Proof.
  intros Hc. unfold PyStr.range_len. rewrite Nat.sub_0_r.
  pose proof (Nat.div_mod_eq (len + (c - 1)) c) as E.
  pose proof (Nat.mod_upper_bound (len + (c - 1)) c) as U.
  nia.
Qed.

Lemma range_len_inside (c len k : nat) :
  0 < c -> k < PyStr.range_len 0 len c -> k * c < len.
Proof.
  intros Hc Hk. unfold PyStr.range_len in Hk. rewrite Nat.sub_0_r in Hk.
  pose proof (Nat.div_mod_eq (len + (c - 1)) c) as E.
  pose proof (Nat.mod_upper_bound (len + (c - 1)) c) as U.
  nia.
Qed.

(** ** Delivery of the answer *)

Lemma chunks_slices (result : string) :
  chunks result
  = map (fun i => substring i 4000 result)
        (map (fun k => k * 4000)
             (seq 0 (PyStr.range_len 0 (String.length result) 4000))).
Proof.
  unfold chunks, PyStr.range, PyStr.slice. rewrite !map_map.
  apply map_ext. intros k. f_equal; lia.
Qed.

Lemma chunks_concat (result : string) : String.concat "" (chunks result) = result.
Proof.
  rewrite chunks_slices, concat_slices. apply substring_all.
  apply range_len_covers. lia.
Qed.

Lemma chunks_sizes (result : string) :
  Forall (fun c => 1 <= String.length c <= 4000) (chunks result).
Proof.
  rewrite chunks_slices, map_map. apply Forall_forall. intros c Hc.
  apply in_map_iff in Hc. destruct Hc as (k & <- & Hk).
  apply in_seq in Hk. destruct Hk as [_ Hk]. rewrite Nat.add_0_l in Hk.
  apply range_len_inside in Hk; [| lia].
  rewrite substring_length. lia.
Qed.

Lemma chat_call_ok (env : Env) (ev : event) (w : World) :
  chat env (calls is_chat (log w)) = None ->
  chat_call env ev w = (Ret tt, extend [ev] w).
Proof. intros H. unfold chat_call. rewrite H. reflexivity. Qed.

Lemma for_each_reply (env : Env) (f : nat -> string) (pm : option ParseMode) :
  (forall k, chat env k = None) ->
  forall l w,
    for_each l (fun i => reply_text env (f i) pm) w
    = (Ret tt, extend (map (fun i => EvReply (f i) pm) l) w).
Proof.
  intros Hchat. induction l as [| i l IH]; intros w.
  - simpl. unfold ret. now rewrite extend_nil.
  - simpl. unfold bind, reply_text. rewrite chat_call_ok by apply Hchat.
    rewrite IH, extend_extend. reflexivity.
Qed.

(** C8: a result text longer than 4000 characters is sent as its
    consecutive slices of at most 4000 characters, one reply each (three
    replies for 8500 characters), and the placeholder message is then
    deleted; a text of at most 4000 characters replaces the placeholder
    by an edit with markdown markup. *)
Theorem C8_deliver_chunks_or_edits (env : Env) (result : string) (w : World) :
  (forall k, chat env k = None) ->
  (4000 < String.length result ->
   deliver env result w
   = (Ret tt,
      extend (map (fun c => EvReply c (Some MARKDOWN)) (chunks result)
              ++ [EvDelete])%list w)
   /\ String.concat "" (chunks result) = result
   /\ Forall (fun c => 1 <= String.length c <= 4000) (chunks result)
   /\ (String.length result = 8500 -> List.length (chunks result) = 3))
  /\ (String.length result <= 4000 ->
      deliver env result w = (Ret tt, extend [EvEdit result (Some MARKDOWN)] w)).
Proof.
  intros Hchat. split.
  - intros Hlong. split; [| split; [apply chunks_concat | split; [apply chunks_sizes |]]].
    + unfold deliver.
      destruct (Nat.ltb_spec 4000 (String.length result)) as [_ | Hle]; [| lia].
      unfold bind.
      rewrite (for_each_reply env
                 (fun i => PyStr.slice result i (i + 4000)) (Some MARKDOWN) Hchat).
      unfold delete. rewrite chat_call_ok by apply Hchat.
      rewrite extend_extend. unfold chunks. rewrite map_map. reflexivity.
    + intros H8500. rewrite chunks_slices, !length_map, length_seq, H8500.
      vm_compute. reflexivity.
  - intros Hshort. unfold deliver.
    destruct (Nat.ltb_spec 4000 (String.length result)) as [Hlt | _]; [lia |].
    unfold edit_text. apply chat_call_ok, Hchat.
Qed.

(** A text of 8500 characters goes out as three replies followed by the
    deletion of the placeholder; a text of 500 characters is an edit. *)
Lemma C8_witness_8500_and_500 :
  deliver Scenario.env_qqs (Scenario.text_of_length 8500) Scenario.w0
  = (Ret tt,
     extend (map (fun c => EvReply c (Some MARKDOWN))
                 (chunks (Scenario.text_of_length 8500))
             ++ [EvDelete])%list Scenario.w0)
  /\ List.length (chunks (Scenario.text_of_length 8500)) = 3
  /\ deliver Scenario.env_qqs (Scenario.text_of_length 500) Scenario.w0
     = (Ret tt,
        extend [EvEdit (Scenario.text_of_length 500) (Some MARKDOWN)] Scenario.w0).
Proof.
  destruct (C8_deliver_chunks_or_edits Scenario.env_qqs
              (Scenario.text_of_length 8500) Scenario.w0 (fun _ => eq_refl))
    as [Hlong _].
  destruct Hlong as (Hrun & _ & _ & Hthree).
  { apply Nat.ltb_lt. vm_compute. reflexivity. }
  destruct (C8_deliver_chunks_or_edits Scenario.env_qqs
              (Scenario.text_of_length 500) Scenario.w0 (fun _ => eq_refl))
    as [_ Hshort].
  split; [exact Hrun | split].
  - apply Hthree. vm_compute. reflexivity.
  - apply Hshort. apply Nat.leb_le. vm_compute. reflexivity.
Defined.

(** ** The answer that is delivered *)

Lemma text_or_default (response : Response) (default : string) :
  text response = Absent \/ text response = PyNone \/ text response = Val "" ->
  text_or response default = default.
Proof.
  unfold text_or. intros [H | [H | H]]; rewrite H; reflexivity.
Qed.

(** C10: when the response has candidates but its text is absent, [None]
    or empty, the reply body is "Answer: No content generated.", with the
    line "Prompt: ..." before it exactly when [show_prompt] is set; that
    body is what the handler delivers.  The bindings set [show_prompt]
    only when an argument follows the command name, and never for the
    recipe and marketing commands. *)
Theorem C10_no_content_generated
    (prompt : string) (show_prompt : bool) (response : Response) :
  text response = Absent \/ text response = PyNone \/ text response = Val "" ->
  result_text prompt show_prompt response
  = (if show_prompt then "Prompt: " ++ prompt ++ nl else "")
    ++ "Answer: No content generated."
  /\ (forall env fuel reply path (cook_mode : bool) expect_type input w0 w c cs,
        candidates response = Val (c :: cs) ->
        prepare_input_data env fuel reply path prompt w0 = (Ret input, w) ->
        generate_content env (calls is_generate (log w))
          (if cook_mode then Some COOK_GEN_CONFIG else None) input
        = inr response ->
        answer env fuel reply path prompt show_prompt cook_mode expect_type w0
        = deliver env
            ((if show_prompt then "Prompt: " ++ prompt ++ nl else "")
             ++ "Answer: No content generated.")
            (extend [EvGenerate (if cook_mode then Some COOK_GEN_CONFIG else None)
                       input] w))
  /\ (forall env fuel message,
        List.length (command message) <= 1 ->
        getai env fuel message
        = ai_process_handler env fuel message
            "Get details of the image. Be accurate and write a short response."
            false false (Some "image") "Scanning..."
        /\ transcribe env fuel message
           = ai_process_handler env fuel message
               "Transcribe it. Write only the transcription text."
               false false (Some "audio") "Transcribing...")
  /\ (forall env fuel message,
        List.length (split1 (message_text message)) <= 1 ->
        pr_command env fuel message
        = ai_process_handler env fuel message
            "Shortly summarize the content and details of the file."
            false false None "Processing...")
  /\ (forall env fuel message,
        aicook env fuel message
        = ai_process_handler env fuel message
            "Identify the baked good in the image and provide an accurate recipe."
            false true (Some "image") "Cooking...")
  /\ (forall env fuel message target,
        1 < List.length (command message) ->
        item1 (split1 (message_text message)) = ret target ->
        aiseller env fuel message
        = ai_process_handler env fuel message
            ("Generate a marketing description for the product." ++ nl
             ++ "Target Audience: " ++ target)
            false false (Some "image") "Generating description...").
Proof.
  intros Htext.
  assert (E : result_text prompt show_prompt response
              = (if show_prompt then "Prompt: " ++ prompt ++ nl else "")
                ++ "Answer: No content generated.").
  { unfold result_text. now rewrite text_or_default. }
  split; [exact E |]. split; [| split; [| split; [| split]]].
  - intros env fuel reply path cook_mode expect_type input w0 w c cs Hc Hprep Hgen.
    unfold answer, bind. rewrite Hprep. unfold retry_loop.
    rewrite attempts_S, (attempt_break _ _ _ _ _ response);
      [| exact Hgen | unfold no_candidates; now rewrite Hc].
    rewrite E. reflexivity.
  - intros env fuel message Hlen.
    assert (Nat.ltb 1 (List.length (command message)) = false) as F
      by (apply Nat.ltb_ge; exact Hlen).
    unfold getai, transcribe. rewrite F. split; reflexivity.
  - intros env fuel message Hlen. unfold pr_command.
    assert (Nat.ltb 1 (List.length (split1 (message_text message))) = false) as ->
      by (apply Nat.ltb_ge; exact Hlen).
    reflexivity.
  - reflexivity.
  - intros env fuel message target Hlen Hitem. unfold aiseller.
    assert (Nat.ltb 1 (List.length (command message)) = true) as ->
      by (apply Nat.ltb_lt; exact Hlen).
    rewrite Hitem. reflexivity.
Qed.

(** A response whose text is [None]: without and with an echoed prompt. *)
Lemma C10_witness_text_none :
  result_text "Summarize" false Scenario.silent = "Answer: No content generated."
  /\ result_text "Summarize" true Scenario.silent
     = "Prompt: Summarize" ++ nl ++ "Answer: No content generated.".
Proof.
  split.
  - exact (proj1 (C10_no_content_generated "Summarize" false Scenario.silent
                    (or_intror (or_introl eq_refl)))).
  - exact (proj1 (C10_no_content_generated "Summarize" true Scenario.silent
                    (or_intror (or_introl eq_refl)))).
Defined.

(** ** Clean-up of the downloaded file *)

Lemma gen_bound_extends {A : Type} (k : nat) (m : M A) : gen_bound k m -> extends m.
Proof. intros H w. destruct (H w) as (l & E & _). now exists l. Qed.

Lemma extends_ret {A : Type} (a : A) : extends (ret a).
Proof. intros w. exists []. now rewrite extend_nil. Qed.

Lemma extends_raise {A : Type} (e : exn) : extends (@raise A e).
Proof. intros w. exists []. now rewrite extend_nil. Qed.

Lemma extends_pending {A : Type} : extends (@pending A).
Proof. intros w. exists []. now rewrite extend_nil. Qed.

Lemma extends_lift {A : Type} (r : exn + A) : extends (lift r).
Proof. destruct r; [apply extends_raise | apply extends_ret]. Qed.

Lemma extends_lift_opt (r : option exn) : extends (lift_opt r).
Proof. destruct r; [apply extends_raise | apply extends_ret]. Qed.

Lemma extends_bind {A B : Type} (m : M A) (f : A -> M B) :
  extends m -> (forall a, extends (f a)) -> extends (bind m f).
Proof.
  intros Hm Hf w. unfold bind.
  destruct (Hm w) as (l1 & E1).
  destruct (m w) as [[a | e |] w1]; simpl in E1; subst w1.
  - destruct (Hf a (extend l1 w)) as (l2 & E2).
    exists (l1 ++ l2)%list. now rewrite E2, extend_extend.
  - now exists l1.
  - now exists l1.
Qed.

Lemma extends_try_except {A : Type} (m : M A) (h : exn -> M A) :
  extends m -> (forall e, extends (h e)) -> extends (try_except m h).
Proof.
  intros Hm Hh w. unfold try_except.
  destruct (Hm w) as (l1 & E1).
  destruct (m w) as [[a | e |] w1]; simpl in E1; subst w1.
  - now exists l1.
  - destruct (Hh e (extend l1 w)) as (l2 & E2).
    exists (l1 ++ l2)%list. now rewrite E2, extend_extend.
  - now exists l1.
Qed.

Lemma extends_for_each {A : Type} (l : list A) (body : A -> M unit) :
  (forall a, extends (body a)) -> extends (for_each l body).
Proof.
  intros Hb. induction l as [| x l IH]; simpl.
  - apply extends_ret.
  - apply extends_bind; [apply Hb | intros _; exact IH].
Qed.

Lemma extends_chat_call (env : Env) (ev : event) : extends (chat_call env ev).
Proof.
  intros w. exists [ev]. unfold chat_call, record.
  destruct (chat env _); reflexivity.
Qed.

Lemma extends_sleep (n : nat) : extends (sleep n).
Proof. intros w. now exists [EvSleep n]. Qed.

Lemma extends_upload (env : Env) (path : string) : extends (genai_upload_file env path).
Proof.
  intros w. exists [EvUpload path]. unfold genai_upload_file, record.
  destruct (upload_file env path); reflexivity.
Qed.

Lemma extends_get_file (env : Env) (file : string) : extends (genai_get_file env file).
Proof.
  intros w. exists [EvGetFile file]. unfold genai_get_file, record.
  destruct (get_file env _ file); reflexivity.
Qed.

Create HintDb extends.

#[local] Hint Resolve extends_ret extends_raise extends_pending
  extends_lift extends_lift_opt extends_chat_call extends_sleep
  extends_upload extends_get_file : extends.

Lemma extends_poll (env : Env) (fuel : nat) : forall f, extends (poll env fuel f).
Proof.
  induction fuel as [| fuel IH]; intros f; simpl;
    destruct (state_name f =? "PROCESSING"); auto with extends.
  apply extends_bind; [auto with extends |]. intros _.
  apply extends_bind; [auto with extends | exact IH].
Qed.

Lemma extends_upload_file (env : Env) (fuel : nat) (path kind : string) :
  extends (_upload_file env fuel path kind).
Proof.
  unfold _upload_file.
  apply extends_bind; [auto with extends |]. intros f.
  apply extends_bind; [apply extends_poll |]. intros f'.
  destruct (state_name f' =? "FAILED"); auto with extends.
Qed.

Lemma extends_prepare (env : Env) (fuel : nat) (reply : Reply) (path prompt : string) :
  extends (prepare_input_data env fuel reply path prompt).
Proof.
  unfold prepare_input_data.
  repeat match goal with
         | |- extends (if ?b then _ else _) => destruct b
         | |- extends (bind _ _) => apply extends_bind; [| intros ?]
         | |- _ => apply extends_upload_file
         | |- _ => solve [auto with extends]
         end.
Qed.

Lemma extends_deliver (env : Env) (result : string) : extends (deliver env result).
Proof.
  unfold deliver. destruct (Nat.ltb 4000 (String.length result)).
  - apply extends_bind.
    + apply extends_for_each. intros i. apply extends_chat_call.
    + intros _. apply extends_chat_call.
  - apply extends_chat_call.
Qed.

Lemma extends_answer
    (env : Env) (fuel : nat) (reply : Reply) (path prompt : string)
    (show_prompt cook_mode : bool) (expect_type : option string) :
  extends (answer env fuel reply path prompt show_prompt cook_mode expect_type).
Proof.
  unfold answer.
  apply extends_bind; [apply extends_prepare |]. intros input.
  apply extends_bind.
  - apply (gen_bound_extends 3). apply attempts_bound.
  - intros [r |]; [apply extends_deliver | apply extends_ret].
Qed.

Lemma extends_report (env : Env) (e : exn) : extends (report env e).
Proof.
  unfold report.
  destruct (is_ValueError e); [apply extends_chat_call |].
  destruct (is_Exception e); [apply extends_chat_call | apply extends_raise].
Qed.

Lemma exists_file_in (p : string) (w : World) :
  In p (files w) -> exists_file p w = true.
Proof.
  intros H. unfold exists_file. apply existsb_exists.
  exists p. split; [assumption | apply String.eqb_refl].
Qed.

Lemma unlink_removes (p : string) (w : World) : ~ In p (files (unlink p w)).
Proof.
  unfold unlink; simpl. intros H. apply filter_In in H. destruct H as [_ H].
  now rewrite String.eqb_refl in H.
Qed.

(** What the [finally] clause does when the file is there. *)
Lemma cleanup_run (env : Env) (p : string) (w : World) :
  In p (files w) ->
  cleanup env p w
  = match os_remove env p with
    | None => (Ret tt, unlink p (extend [EvRemove p] w))
    | Some e =>
        if is_Exception e then (Ret tt, extend [EvRemove p] w)
        else (Raise e, extend [EvRemove p] w)
    end.
Proof.
  intros Hin. unfold cleanup, bind, os_path_exists.
  rewrite (exists_file_in p w Hin).
  unfold try_except, os_remove_call, record.
  destruct (os_remove env p) as [e |]; [| reflexivity].
  destruct (is_Exception e); reflexivity.
Qed.

(** The [try] statement: the [finally] clause runs after the protected
    part on every outcome, and the file is still there when it runs. *)
Lemma process_file_run
    (env : Env) (fuel : nat) (reply : Reply) (p prompt : string)
    (show_prompt cook_mode : bool) (expect_type : option string) (w : World) :
  In p (files w) ->
  exists l,
    let protected :=
      try_except (answer env fuel reply p prompt show_prompt cook_mode expect_type)
                 (report env) in
    snd (protected w) = extend l w
    /\ process_file env fuel reply p prompt show_prompt cook_mode expect_type w
       = match fst (protected w), os_remove env p with
         | Pending, _ => (Pending, extend l w)
         | r, None => (r, unlink p (extend (l ++ [EvRemove p]) w))
         | r, Some e =>
             if is_Exception e then (r, extend (l ++ [EvRemove p]) w)
             else (Raise e, extend (l ++ [EvRemove p]) w)
         end.
Proof.
  intros Hin.
  destruct (extends_try_except
              (answer env fuel reply p prompt show_prompt cook_mode expect_type)
              (report env)
              (extends_answer env fuel reply p prompt show_prompt cook_mode expect_type)
              (extends_report env) w) as (l & El).
  exists l. simpl. split; [exact El |].
  unfold process_file, try_finally.
  destruct (try_except _ _ w) as [r w1]. simpl in El. subst w1. simpl.
  assert (Hin' : In p (files (extend l w))) by exact Hin.
  rewrite (cleanup_run env p (extend l w) Hin'), extend_extend.
  destruct r as [[] | x |]; [| | reflexivity];
    (destruct (os_remove env p) as [e |]; [destruct (is_Exception e) |]; reflexivity).
Qed.

(** After the status message and a successful download the handler is
    in its [try] statement. *)
Lemma handler_reaches_try
    (env : Env) (fuel : nat) (message : Message) (prompt : string)
    (show_prompt cook_mode : bool) (expect_type : option string)
    (status_msg : string) (w : World) (reply : Reply) (p : string)
    (fs : list string) :
  reply_to_message message = Some reply ->
  truthy (_valid_file reply expect_type) = true ->
  chat env (calls is_chat (log w)) = None ->
  download env reply (files w) = (inr (Some p), fs) ->
  p <> "" ->
  In p fs ->
  ai_process_handler env fuel message prompt show_prompt cook_mode expect_type
    status_msg w
  = process_file env fuel reply p prompt show_prompt cook_mode expect_type
      {| files := fs; log := (log w ++ [EvEdit status_msg None; EvDownload])%list |}.
Proof.
  intros Hreply Hvalid Hchat Hdl Hp Hin.
  unfold ai_process_handler. rewrite Hreply, Hvalid. simpl.
  unfold bind at 1. unfold edit_text. rewrite chat_call_ok by assumption.
  unfold bind at 1. unfold reply_download. simpl. rewrite Hdl. simpl.
  unfold bind at 1. unfold os_path_exists.
  rewrite exists_file_in by exact Hin.
  apply String.eqb_neq in Hp. rewrite Hp. simpl.
  rewrite <- app_assoc. reflexivity.
Qed.

(** C9: once the download has succeeded, every way in which the handler
    ends (answer delivered, error reported, early return, exception)
    goes through the removal of the downloaded file, as the last call
    the handler makes: when the removal succeeds the file is gone, and
    when it fails with an error the failure is swallowed, the handler
    ending exactly as its protected part did. *)
Theorem C9_downloaded_file_removed
    (env : Env) (fuel : nat) (message : Message) (prompt : string)
    (show_prompt cook_mode : bool) (expect_type : option string)
    (status_msg : string) (w : World) (reply : Reply) (p : string)
    (fs : list string) (out : outcome unit) (w' : World) :
  reply_to_message message = Some reply ->
  truthy (_valid_file reply expect_type) = true ->
  chat env (calls is_chat (log w)) = None ->
  download env reply (files w) = (inr (Some p), fs) ->
  p <> "" ->
  In p fs ->
  ai_process_handler env fuel message prompt show_prompt cook_mode expect_type
    status_msg w = (out, w') ->
  out <> Pending ->
  let w1 := {| files := fs;
               log := (log w ++ [EvEdit status_msg None; EvDownload])%list |} in
  let protected :=
    try_except (answer env fuel reply p prompt show_prompt cook_mode expect_type)
               (report env) in
  (exists l, log w' = (log w1 ++ l ++ [EvRemove p])%list)
  /\ (os_remove env p = None ->
      ~ In p (files w') /\ out = fst (protected w1))
  /\ (forall e, os_remove env p = Some e -> is_Exception e = true ->
      out = fst (protected w1)).
Proof.
  intros Hreply Hvalid Hchat Hdl Hp Hin Hrun Hout w1 protected.
  rewrite (handler_reaches_try env fuel message prompt show_prompt cook_mode
             expect_type status_msg w reply p fs) in Hrun by assumption.
  fold w1 in Hrun.
  destruct (process_file_run env fuel reply p prompt show_prompt cook_mode
              expect_type w1 Hin) as (l & El & Erun).
  fold protected in El, Erun. rewrite Erun in Hrun. clear Erun.
  destruct (fst (protected w1)) as [[] | x |] eqn:Efst.
  - destruct (os_remove env p) as [e |] eqn:Erm.
    + destruct (is_Exception e) eqn:Ee; inversion Hrun; subst; simpl.
      * split; [exists l; now rewrite app_assoc |].
        split; [discriminate | reflexivity].
      * split; [exists l; now rewrite app_assoc |].
        split; [discriminate |]. intros e' He'. inversion He'; subst. congruence.
    + inversion Hrun; subst; simpl.
      split; [exists l; now rewrite app_assoc |].
      split; [| discriminate].
      intros _. split; [| reflexivity].
      apply (unlink_removes p (extend (l ++ [EvRemove p]) w1)).
  - destruct (os_remove env p) as [e |] eqn:Erm.
    + destruct (is_Exception e) eqn:Ee; inversion Hrun; subst; simpl.
      * split; [exists l; now rewrite app_assoc |].
        split; [discriminate | reflexivity].
      * split; [exists l; now rewrite app_assoc |].
        split; [discriminate |]. intros e' He'. inversion He'; subst. congruence.
    + inversion Hrun; subst; simpl.
      split; [exists l; now rewrite app_assoc |].
      split; [| discriminate].
      intros _. split; [| reflexivity].
      apply (unlink_removes p (extend (l ++ [EvRemove p]) w1)).
  - inversion Hrun; subst. now elim Hout.
Qed.

(** A voice message answered after two retries: the file is gone at the
    end.  The same with a removal that fails: the handler still ends
    normally. *)
Lemma C9_witness_removed_and_swallowed :
  ~ In Scenario.tmp
      (files (snd (ai_process_handler Scenario.env_qqs 5 Scenario.voice_message
                     "Summarize" false false None "Processing..." Scenario.w0)))
  /\ fst (ai_process_handler Scenario.env_stuck_file 5 Scenario.voice_message
            "Summarize" false false None "Processing..." Scenario.w0)
     = Ret tt.
Proof.
  split.
  - pose (run := ai_process_handler Scenario.env_qqs 5 Scenario.voice_message
                   "Summarize" false false None "Processing..." Scenario.w0).
    destruct (C9_downloaded_file_removed Scenario.env_qqs 5 Scenario.voice_message
                "Summarize" false false None "Processing..." Scenario.w0
                Scenario.voice_reply Scenario.tmp [Scenario.tmp]
                (fst run) (snd run))
      as (_ & Hgone & _).
    + reflexivity.
    + reflexivity.
    + reflexivity.
    + reflexivity.
    + discriminate.
    + left; reflexivity.
    + vm_compute. reflexivity.
    + vm_compute. discriminate.
    + exact (proj1 (Hgone eq_refl)).
  - pose (run := ai_process_handler Scenario.env_stuck_file 5 Scenario.voice_message
                   "Summarize" false false None "Processing..." Scenario.w0).
    destruct (C9_downloaded_file_removed Scenario.env_stuck_file 5
                Scenario.voice_message
                "Summarize" false false None "Processing..." Scenario.w0
                Scenario.voice_reply Scenario.tmp [Scenario.tmp]
                (fst run) (snd run))
      as (_ & _ & Hswallowed).
    + reflexivity.
    + reflexivity.
    + reflexivity.
    + reflexivity.
    + discriminate.
    + left; reflexivity.
    + vm_compute. reflexivity.
    + vm_compute. discriminate.
    + change (fst run = Ret tt).
      rewrite (Hswallowed {| cls := OtherException; str := "Permission denied" |}
                 eq_refl eq_refl).
      vm_compute. reflexivity.
Defined.

(** * Further properties of the handler *)

(** ** The classifier with an expected category *)

(** X1: for the categories "audio" and "video" the classifier gives the
    same answer, true exactly when the message carries audio, voice,
    video or a video note. *)
Theorem valid_file_audio_video_is_broad (reply : Reply) :
  _valid_file reply (Some "video") = _valid_file reply (Some "audio")
  /\ (truthy (_valid_file reply (Some "audio")) = true
      <-> audio reply <> None \/ voice reply <> None
          \/ video reply <> None \/ video_note reply <> None).
Proof.
  split; [reflexivity |].
  unfold _valid_file; simpl.
  rewrite orb_false_r, !orb_true_iff, !present_true. tauto.
Qed.

(** X2: a category other than "image", "audio" and "video" constrains
    nothing: the classifier answers as it does without a category. *)
Theorem valid_file_unknown_category_is_ignored (reply : Reply) (t : string) :
  t <> "image" -> t <> "audio" -> t <> "video" ->
  _valid_file reply (Some t) = _valid_file reply None.
Proof.
  intros Hi Ha Hv. unfold _valid_file.
  apply String.eqb_neq in Hi, Ha, Hv. rewrite Hi, Ha, Hv. reflexivity.
Qed.

Lemma valid_file_unknown_category_witness :
  _valid_file Scenario.photo_reply (Some "document")
  = VMedia {| file_id := "p1" |}.
Proof.
  rewrite (valid_file_unknown_category_is_ignored Scenario.photo_reply "document");
    [reflexivity | discriminate ..].
Defined.

(** ** The handler before the download *)

Lemma chat_call_run (env : Env) (ev : event) (w : World) :
  chat_call env ev w
  = (match chat env (calls is_chat (log w)) with
     | Some e => Raise e
     | None => Ret tt
     end, extend [ev] w).
Proof. unfold chat_call. destruct (chat env _); reflexivity. Qed.

(** X3: without a replied-to message the only call the handler makes is
    the edit that shows the usage line, which names the expected
    category when there is one. *)
Theorem handler_without_reply_shows_usage
    (env : Env) (fuel : nat) (message : Message) (prompt : string)
    (show_prompt cook_mode : bool) (expect_type : option string)
    (status_msg : string) (w : World) (c : string) (rest : list string) :
  reply_to_message message = None ->
  command message = c :: rest ->
  snd (ai_process_handler env fuel message prompt show_prompt cook_mode
         expect_type status_msg w)
  = extend
      [EvEdit
         (match expect_type with
          | Some t =>
              if t =? "" then
                "Usage: " ++ prefix env ++ c ++ " [prompt] [Reply to a file]"
              else
                "Usage: " ++ prefix env ++ c ++ " [custom prompt] [Reply to a "
                ++ t ++ "]"
          | None => "Usage: " ++ prefix env ++ c ++ " [prompt] [Reply to a file]"
          end) None] w.
Proof.
  intros Hreply Hcmd. unfold ai_process_handler, command0.
  rewrite Hreply, Hcmd. unfold bind, ret, edit_text. rewrite chat_call_run. simpl.
  destruct expect_type as [t |]; simpl; [| reflexivity].
  destruct (t =? ""); reflexivity.
Qed.

Lemma handler_without_reply_witness :
  snd (ai_process_handler Scenario.env_good 5 Scenario.bare_message "Describe"
         false false (Some "image") "Scanning..." Scenario.w0)
  = {| files := [];
       log := [EvEdit "Usage: .getai [custom prompt] [Reply to a image]" None] |}.
Proof.
  exact (handler_without_reply_shows_usage Scenario.env_good 5
           Scenario.bare_message "Describe" false false (Some "image")
           "Scanning..." Scenario.w0 "getai" [] eq_refl eq_refl).
Defined.

(** X4: when the classifier refuses the replied-to message, the only
    call is the edit "Invalid ... file. Please try again."; nothing is
    downloaded, uploaded or generated. *)
Theorem handler_refuses_invalid_file
    (env : Env) (fuel : nat) (message : Message) (prompt : string)
    (show_prompt cook_mode : bool) (expect_type : option string)
    (status_msg : string) (w : World) (reply : Reply) :
  reply_to_message message = Some reply ->
  truthy (_valid_file reply expect_type) = false ->
  snd (ai_process_handler env fuel message prompt show_prompt cook_mode
         expect_type status_msg w)
  = extend
      [EvEdit
         ("Invalid "
          ++ match expect_type with
             | Some t => if t =? "" then "supported" else t
             | None => "supported"
             end
          ++ " file. Please try again.") None] w.
Proof.
  intros Hreply Hvalid. unfold ai_process_handler.
  rewrite Hreply, Hvalid. simpl. unfold edit_text. rewrite chat_call_run. simpl.
  destruct expect_type as [t |]; simpl; [| reflexivity].
  destruct (t =? ""); reflexivity.
Qed.

Lemma handler_refuses_invalid_file_witness :
  snd (ai_process_handler Scenario.env_good 5 Scenario.photo_message "Transcribe"
         false false (Some "audio") "Transcribing..." Scenario.w0)
  = {| files := [];
       log := [EvEdit "Invalid audio file. Please try again." None] |}.
Proof.
  exact (handler_refuses_invalid_file Scenario.env_good 5 Scenario.photo_message
           "Transcribe" false false (Some "audio") "Transcribing..." Scenario.w0
           Scenario.photo_reply eq_refl eq_refl).
Defined.

(** X5: with the expected category "image", a replied-to message
    without photo, whatever else it carries, gets the edit "Invalid
    image file. Please try again." and no other call. *)
Theorem handler_image_command_needs_photo
    (env : Env) (fuel : nat) (message : Message) (prompt : string)
    (show_prompt cook_mode : bool) (status_msg : string) (w : World)
    (reply : Reply) :
  reply_to_message message = Some reply ->
  photo reply = None ->
  snd (ai_process_handler env fuel message prompt show_prompt cook_mode
         (Some "image") status_msg w)
  = extend [EvEdit "Invalid image file. Please try again." None] w.
Proof.
  intros Hreply Hphoto. unfold ai_process_handler. rewrite Hreply.
  unfold _valid_file. simpl. rewrite Hphoto. simpl.
  unfold edit_text. rewrite chat_call_run. reflexivity.
Qed.

Lemma handler_image_command_needs_photo_witness :
  snd (ai_process_handler Scenario.env_good 5 Scenario.video_message "Describe"
         false false (Some "image") "Scanning..." Scenario.w0)
  = {| files := [];
       log := [EvEdit "Invalid image file. Please try again." None] |}.
Proof.
  exact (handler_image_command_needs_photo Scenario.env_good 5
           Scenario.video_message "Describe" false false "Scanning..."
           Scenario.w0 Scenario.video_reply eq_refl eq_refl).
Defined.

(** ** The status message and the download *)

(** X6: when the edit that shows the status message fails, the handler
    raises that error at once: nothing is downloaded. *)
Theorem handler_status_edit_failure_stops
    (env : Env) (fuel : nat) (message : Message) (prompt : string)
    (show_prompt cook_mode : bool) (expect_type : option string)
    (status_msg : string) (w : World) (reply : Reply) (e : exn) :
  reply_to_message message = Some reply ->
  truthy (_valid_file reply expect_type) = true ->
  chat env (calls is_chat (log w)) = Some e ->
  ai_process_handler env fuel message prompt show_prompt cook_mode
    expect_type status_msg w
  = (Raise e, extend [EvEdit status_msg None] w).
Proof.
  intros Hreply Hvalid Hchat. unfold ai_process_handler.
  rewrite Hreply, Hvalid. simpl.
  unfold bind at 1. unfold edit_text. rewrite chat_call_run, Hchat. reflexivity.
Qed.

Lemma handler_status_edit_failure_witness :
  ai_process_handler Scenario.env_chat_down 5 Scenario.voice_message "Summarize"
    false false None "Processing..." Scenario.w0
  = (Raise Scenario.forbidden,
     {| files := []; log := [EvEdit "Processing..." None] |}).
Proof.
  exact (handler_status_edit_failure_stops Scenario.env_chat_down 5
           Scenario.voice_message "Summarize" false false None "Processing..."
           Scenario.w0 Scenario.voice_reply Scenario.forbidden
           eq_refl eq_refl eq_refl).
Defined.

Lemma exists_file_not_in (p : string) (w : World) :
  ~ In p (files w) -> exists_file p w = false.
Proof.
  intros H. unfold exists_file.
  destruct (existsb (String.eqb p) (files w)) eqn:E; [| reflexivity].
  apply existsb_exists in E. destruct E as (q & Hq & Heq).
  apply String.eqb_eq in Heq. subst q. contradiction.
Qed.

(** X7: when the download gives no path, an empty path, or a path that
    is not on disk, the handler edits the message to "Failed to process
    the file. Try again." and stops: no upload, no inference call, no
    removal. *)
Theorem handler_download_without_file
    (env : Env) (fuel : nat) (message : Message) (prompt : string)
    (show_prompt cook_mode : bool) (expect_type : option string)
    (status_msg : string) (w : World) (reply : Reply)
    (r : option string) (fs : list string) :
  reply_to_message message = Some reply ->
  truthy (_valid_file reply expect_type) = true ->
  chat env (calls is_chat (log w)) = None ->
  download env reply (files w) = (inr r, fs) ->
  r = None \/ r = Some "" \/ (exists p, r = Some p /\ ~ In p fs) ->
  snd (ai_process_handler env fuel message prompt show_prompt cook_mode
         expect_type status_msg w)
  = {| files := fs;
       log := (log w ++ [EvEdit status_msg None; EvDownload;
                         EvEdit "Failed to process the file. Try again." None])%list |}.
Proof.
  intros Hreply Hvalid Hchat Hdl Hr. unfold ai_process_handler.
  rewrite Hreply, Hvalid. simpl.
  unfold bind at 1. unfold edit_text. rewrite chat_call_ok by assumption.
  unfold bind at 1. unfold reply_download. simpl. rewrite Hdl. simpl.
  assert (Hlog : forall o : outcome unit * World,
             snd o = extend [EvEdit "Failed to process the file. Try again." None]
                       {| files := fs;
                          log := ((log w ++ [EvEdit status_msg None])
                                  ++ [EvDownload])%list |} ->
             snd o = {| files := fs;
                        log := (log w ++ [EvEdit status_msg None; EvDownload;
                                          EvEdit "Failed to process the file. Try again."
                                            None])%list |}).
  { intros o ->. unfold extend. simpl. now rewrite <- !app_assoc. }
  apply Hlog.
  destruct Hr as [-> | [-> | (p & -> & Hp)]].
  - rewrite chat_call_run. reflexivity.
  - unfold bind, os_path_exists. simpl. rewrite chat_call_run. reflexivity.
  - unfold bind, os_path_exists.
    rewrite exists_file_not_in by exact Hp.
    rewrite orb_true_r. rewrite chat_call_run. reflexivity.
Qed.

Lemma handler_download_without_file_witness :
  snd (ai_process_handler Scenario.env_no_download 5 Scenario.voice_message
         "Summarize" false false None "Processing..." Scenario.w0)
  = {| files := [];
       log := [EvEdit "Processing..." None; EvDownload;
               EvEdit "Failed to process the file. Try again." None] |}.
Proof.
  exact (handler_download_without_file Scenario.env_no_download 5
           Scenario.voice_message "Summarize" false false None "Processing..."
           Scenario.w0 Scenario.voice_reply None [] eq_refl eq_refl eq_refl
           eq_refl (or_introl eq_refl)).
Defined.

(** X8: an exception of the download itself is not handled: the
    handler raises it, leaving the status message in place, with no
    further edit and no removal. *)
Theorem handler_download_error_propagates
    (env : Env) (fuel : nat) (message : Message) (prompt : string)
    (show_prompt cook_mode : bool) (expect_type : option string)
    (status_msg : string) (w : World) (reply : Reply)
    (e : exn) (fs : list string) :
  reply_to_message message = Some reply ->
  truthy (_valid_file reply expect_type) = true ->
  chat env (calls is_chat (log w)) = None ->
  download env reply (files w) = (inl e, fs) ->
  ai_process_handler env fuel message prompt show_prompt cook_mode
    expect_type status_msg w
  = (Raise e,
     {| files := fs; log := (log w ++ [EvEdit status_msg None; EvDownload])%list |}).
Proof.
  intros Hreply Hvalid Hchat Hdl. unfold ai_process_handler.
  rewrite Hreply, Hvalid. simpl.
  unfold bind at 1. unfold edit_text. rewrite chat_call_ok by assumption.
  unfold bind at 1. unfold reply_download. simpl. rewrite Hdl. simpl.
  unfold raise. now rewrite <- app_assoc.
Qed.

Lemma handler_download_error_witness :
  ai_process_handler Scenario.env_download_fails 5 Scenario.voice_message
    "Summarize" false false None "Processing..." Scenario.w0
  = (Raise Scenario.network_down,
     {| files := []; log := [EvEdit "Processing..." None; EvDownload] |}).
Proof.
  exact (handler_download_error_propagates Scenario.env_download_fails 5
           Scenario.voice_message "Summarize" false false None "Processing..."
           Scenario.w0 Scenario.voice_reply Scenario.network_down []
           eq_refl eq_refl eq_refl eq_refl).
Defined.

(** ** More on upload and poll *)

Lemma poll_never_ends (env : Env) :
  (forall k file, exists f,
      get_file env k file = inr f /\ state_name f = "PROCESSING") ->
  forall fuel f w,
    state_name f = "PROCESSING" ->
    fst (poll env fuel f w) = Pending
    /\ exists l, snd (poll env fuel f w) = extend l w
                 /\ calls is_get_file l = fuel
                 /\ calls is_sleep l = fuel.
Proof.
  intros Hsvc. induction fuel as [| fuel IH]; intros f w Hf.
  - simpl. rewrite Hf. simpl. split; [reflexivity |].
    exists []. now rewrite extend_nil.
  - simpl. rewrite Hf. simpl.
    unfold bind, sleep, genai_get_file, record.
    destruct (Hsvc (calls is_get_file (log (extend [EvSleep 5] w))) (name f))
      as (f' & Hget & Hf').
    rewrite Hget. simpl. rewrite extend_extend.
    destruct (IH f' (extend ([EvSleep 5] ++ [EvGetFile (name f)]) w) Hf')
      as (Hp & l & El & Cg & Cs).
    split; [exact Hp |].
    exists (([EvSleep 5] ++ [EvGetFile (name f)]) ++ l)%list.
    rewrite El, extend_extend, !calls_app, Cg, Cs. repeat split.
Qed.

(** X9: the wait has no bound of its own: if the service keeps
    answering PROCESSING, the upload neither returns nor raises however
    long it is run; after [fuel] turns it has slept and polled [fuel]
    times and is still waiting. *)
Theorem upload_waits_as_long_as_processing
    (env : Env) (path file_type : string) (w : World) (f0 : File) :
  upload_file env path = inr f0 ->
  state_name f0 = "PROCESSING" ->
  (forall k file, exists f,
      get_file env k file = inr f /\ state_name f = "PROCESSING") ->
  forall fuel,
    fst (_upload_file env fuel path file_type w) = Pending
    /\ calls is_get_file (log (snd (_upload_file env fuel path file_type w)))
       = calls is_get_file (log w) + fuel
    /\ calls is_sleep (log (snd (_upload_file env fuel path file_type w)))
       = calls is_sleep (log w) + fuel.
Proof.
  intros Hup Hf0 Hsvc fuel.
  unfold _upload_file, bind, genai_upload_file, record. rewrite Hup. simpl.
  destruct (poll_never_ends env Hsvc fuel f0 (extend [EvUpload path] w) Hf0)
    as (Hp & l & El & Cg & Cs).
  destruct (poll env fuel f0 (extend [EvUpload path] w)) as [o w1].
  simpl in Hp, El. subst o w1. simpl.
  rewrite !calls_app, Cg, Cs. unfold calls; simpl. repeat split; lia.
Qed.

Lemma upload_waits_witness :
  fst (_upload_file Scenario.env_processing_forever 7 Scenario.tmp "video"
         Scenario.w0) = Pending.
Proof.
  refine (proj1 (upload_waits_as_long_as_processing
                   Scenario.env_processing_forever Scenario.tmp "video"
                   Scenario.w0 (Scenario.handle "PROCESSING")
                   eq_refl eq_refl _ 7)).
  intros k file. exists {| name := file; state_name := "PROCESSING" |}.
  split; reflexivity.
Defined.

(** X10: only the states PROCESSING and FAILED are looked at: with any
    other state the wait ends and the handle is returned. *)
Theorem upload_returns_on_any_other_state
    (env : Env) (fuel : nat) (path file_type : string)
    (w : World) (fs : nat -> File) (n : nat) :
  upload_file env path = inr (fs 0) ->
  (forall k, k < n ->
     state_name (fs k) = "PROCESSING"
     /\ get_file env (calls is_get_file (log w) + k) (name (fs k)) = inr (fs (S k))) ->
  state_name (fs n) <> "PROCESSING" ->
  state_name (fs n) <> "FAILED" ->
  n <= fuel ->
  _upload_file env fuel path file_type w
  = (Ret (fs n), extend (EvUpload path :: poll_calls fs n) w).
Proof.
  intros Hup Hproc Hend Hok Hfuel.
  rewrite (upload_file_run env fuel path file_type w fs n) by assumption.
  apply String.eqb_neq in Hok. rewrite Hok. reflexivity.
Qed.

Lemma upload_returns_on_active_witness :
  _upload_file Scenario.env_active 3 Scenario.tmp "audio" Scenario.w0
  = (Ret {| name := "files/abc"; state_name := "ACTIVE" |},
     {| files := [];
        log := [EvUpload Scenario.tmp;
                EvSleep 5; EvGetFile "files/abc";
                EvSleep 5; EvGetFile "files/abc"] |}).
Proof.
  pose (fs := fun k : nat =>
                {| name := "files/abc";
                   state_name := match k with
                                 | 0 | 1 => "PROCESSING"
                                 | _ => "ACTIVE"
                                 end |}).
  apply (upload_returns_on_any_other_state Scenario.env_active 3 Scenario.tmp
           "audio" Scenario.w0 fs 2).
  - reflexivity.
  - intros k Hk. destruct k as [| [| k]]; [split; reflexivity .. | lia].
  - discriminate.
  - discriminate.
  - lia.
Defined.

(** ** How the [try] statement ends *)

Section Ending.

Variable env : Env.
Variable fuel : nat.
Variable reply : Reply.
Variables p prompt : string.
Variables show_prompt cook_mode : bool.
Variable expect_type : option string.

Local Abbreviation the_answer :=
  (answer env fuel reply p prompt show_prompt cook_mode expect_type).

Local Abbreviation the_try :=
  (process_file env fuel reply p prompt show_prompt cook_mode expect_type).

(** The [try] block returned. *)
Lemma process_file_returned (w w1 : World) :
  the_answer w = (Ret tt, w1) ->
  In p (files w1) ->
  os_remove env p = None ->
  the_try w = (Ret tt, unlink p (extend [EvRemove p] w1)).
Proof.
  intros Ha Hin Hrm. unfold process_file, try_finally, try_except.
  rewrite Ha, (cleanup_run env p w1 Hin), Hrm. reflexivity.
Qed.

(** The [try] block raised an error that the [except] clauses report. *)
Lemma process_file_reported (w w1 : World) (e : exn) :
  the_answer w = (Raise e, w1) ->
  is_Exception e = true ->
  chat env (calls is_chat (log w1)) = None ->
  In p (files w1) ->
  os_remove env p = None ->
  the_try w
  = (Ret tt,
     unlink p
       (extend [EvEdit (if is_ValueError e then str e
                        else "Error: " ++ format_exc env e) None;
                EvRemove p] w1)).
Proof.
  intros Ha He Hchat Hin Hrm. unfold process_file, try_finally, try_except.
  rewrite Ha. unfold report, edit_text. rewrite He.
  assert (R : (if is_ValueError e
               then chat_call env (EvEdit (str e) None)
               else chat_call env (EvEdit ("Error: " ++ format_exc env e) None)) w1
              = (Ret tt,
                 extend [EvEdit (if is_ValueError e then str e
                                 else "Error: " ++ format_exc env e) None] w1)).
  { destruct (is_ValueError e); apply chat_call_ok; assumption. }
  rewrite R.
  rewrite (cleanup_run env p (extend _ w1) Hin), Hrm, extend_extend. reflexivity.
Qed.

(** The [try] block raised what no [except] clause catches. *)
Lemma process_file_uncaught (w w1 : World) (e : exn) :
  the_answer w = (Raise e, w1) ->
  is_Exception e = false ->
  In p (files w1) ->
  os_remove env p = None ->
  the_try w = (Raise e, unlink p (extend [EvRemove p] w1)).
Proof.
  intros Ha He Hin Hrm. unfold process_file, try_finally, try_except.
  rewrite Ha. unfold report.
  assert (is_ValueError e = false) as ->
    by (unfold is_ValueError, is_Exception in *; destruct (cls e); congruence).
  rewrite He. unfold raise.
  rewrite (cleanup_run env p w1 Hin), Hrm. reflexivity.
Qed.

Lemma answer_after_prepare (w w1 : World) (input : list part) :
  prepare_input_data env fuel reply p prompt w = (Ret input, w1) ->
  the_answer w
  = (r <- retry_loop env (if cook_mode then Some COOK_GEN_CONFIG else None)
            expect_type input ;;
     match r with
     | Returned => ret tt
     | Got response => deliver env (result_text prompt show_prompt response)
     end) w1.
Proof. intros H. unfold answer, bind at 1. rewrite H. reflexivity. Qed.

Lemma answer_prepare_raises (w w1 : World) (e : exn) :
  prepare_input_data env fuel reply p prompt w = (Raise e, w1) ->
  the_answer w = (Raise e, w1).
Proof. intros H. unfold answer, bind at 1. rewrite H. reflexivity. Qed.

(** X11: an image that cannot be opened or does not pass the integrity
    check stops the handler before any inference call: the error is
    reported by an edit and the downloaded file is removed. *)
Theorem corrupt_image_fails_before_inference (w : World) (e : exn) :
  photo reply <> None ->
  image_open env p = inl e
  \/ (exists img, image_open env p = inr img /\ image_verify env img = Some e) ->
  is_Exception e = true ->
  chat env (calls is_chat (log w)) = None ->
  In p (files w) ->
  os_remove env p = None ->
  the_try w
  = (Ret tt,
     unlink p
       (extend [EvEdit (if is_ValueError e then str e
                        else "Error: " ++ format_exc env e) None;
                EvRemove p] w)).
Proof.
  intros Hphoto Himg He Hchat Hin Hrm.
  apply process_file_reported; try assumption.
  apply answer_prepare_raises.
  unfold prepare_input_data. apply present_true in Hphoto. rewrite Hphoto.
  unfold bind at 1.
  destruct Himg as [Hopen | (img & Hopen & Hver)]; rewrite Hopen; simpl.
  - reflexivity.
  - unfold bind at 1. rewrite Hver. reflexivity.
Qed.

(** X12: when the processing of an uploaded video ends in FAILED, no
    inference call is made; the message is edited to "Video failed to
    process" and the downloaded file is removed. *)
Theorem failed_video_upload_is_reported (w : World) (fs : nat -> File) (n : nat) :
  photo reply = None ->
  video reply <> None \/ video_note reply <> None ->
  upload_file env p = inr (fs 0) ->
  (forall k, k < n ->
     state_name (fs k) = "PROCESSING"
     /\ get_file env (calls is_get_file (log w) + k) (name (fs k)) = inr (fs (S k))) ->
  state_name (fs n) = "FAILED" ->
  n <= fuel ->
  chat env (calls is_chat (log w)) = None ->
  In p (files w) ->
  os_remove env p = None ->
  the_try w
  = (Ret tt,
     unlink p
       (extend (EvUpload p :: poll_calls fs n
                ++ [EvEdit "Video failed to process" None; EvRemove p])%list w)).
Proof.
  intros Hphoto Hvideo Hup Hproc Hfail Hfuel Hchat Hin Hrm.
  assert (Hend : state_name (fs n) <> "PROCESSING") by (rewrite Hfail; discriminate).
  pose proof (upload_file_run env fuel p "video" w fs n Hup Hproc Hend Hfuel) as U.
  rewrite Hfail in U. simpl in U.
  rewrite (process_file_reported w (extend (EvUpload p :: poll_calls fs n) w)
             {| cls := ValueError; str := "Video failed to process" |}).
  - simpl. rewrite extend_extend. reflexivity.
  - apply answer_prepare_raises. unfold prepare_input_data.
    apply present_false in Hphoto. rewrite Hphoto.
    assert (present (video reply) || present (video_note reply) = true) as ->
      by (rewrite orb_true_iff, !present_true; exact Hvideo).
    unfold bind at 1. rewrite U. reflexivity.
  - reflexivity.
  - rewrite calls_extend_none; [assumption |].
    unfold calls. simpl.
    assert (G : forall m g, filter is_chat (poll_calls g m) = []).
    { induction m as [| m IH]; intros g; [reflexivity |].
      rewrite poll_calls_S. simpl. apply IH. }
    now rewrite G.
  - exact Hin.
  - exact Hrm.
Qed.

End Ending.

(** ** Errors of the inference call, seen from the [try] statement *)

Section Reporting.

Variable env : Env.
Variable fuel : nat.
Variable reply : Reply.
Variables p prompt : string.
Variables show_prompt cook_mode : bool.
Variable expect_type : option string.
Variable input : list part.
Variables w w1 : World.

Hypothesis prepared :
  prepare_input_data env fuel reply p prompt w = (Ret input, w1).
Hypothesis on_disk : In p (files w1).
Hypothesis removable : os_remove env p = None.

Local Abbreviation config := (if cook_mode then Some COOK_GEN_CONFIG else None).

Local Abbreviation Gen := (EvGenerate config input).

Local Abbreviation the_try :=
  (process_file env fuel reply p prompt show_prompt cook_mode expect_type).

Lemma answer_loop_raises (e : exn) (w2 : World) :
  retry_loop env config expect_type input w1 = (Raise e, w2) ->
  answer env fuel reply p prompt show_prompt cook_mode expect_type w = (Raise e, w2).
Proof.
  intros H. rewrite (answer_after_prepare _ _ _ _ _ _ _ _ _ _ _ prepared).
  unfold bind. rewrite H. reflexivity.
Qed.

(** X13: an error of the inference call that carries neither signature
    ends the handler after that one attempt: it is shown by an edit, as
    its bare message when it is a [ValueError] and behind "Error: "
    otherwise, and the downloaded file is removed. *)
Theorem inference_error_is_reported (e : exn) :
  generate_content env (calls is_generate (log w1)) config input = inl e ->
  is_Exception e = true ->
  mime_unsupported (PyStr.lower (str e)) = false ->
  transient (PyStr.lower (str e)) = false ->
  chat env (calls is_chat (log w1)) = None ->
  the_try w
  = (Ret tt,
     unlink p
       (extend [Gen;
                EvEdit (if is_ValueError e then str e
                        else "Error: " ++ format_exc env e) None;
                EvRemove p] w1)).
Proof.
  intros Hg He Hm Ht Hchat.
  rewrite (process_file_reported _ _ _ _ _ _ _ _ w (extend [Gen] w1) e).
  - rewrite extend_extend. reflexivity.
  - apply answer_loop_raises. unfold retry_loop.
    rewrite attempts_S, (attempt_other _ _ _ _ _ e) by assumption. reflexivity.
  - assumption.
  - rewrite calls_extend_none by reflexivity. assumption.
  - exact on_disk.
  - exact removable.
Qed.

(** X14: an exception of the inference call that is not an [Exception]
    (an interrupt, a cancellation) is neither retried nor reported: the
    handler raises it, after removing the downloaded file. *)
Theorem base_exception_passes_through (e : exn) :
  generate_content env (calls is_generate (log w1)) config input = inl e ->
  is_Exception e = false ->
  the_try w = (Raise e, unlink p (extend [Gen; EvRemove p] w1)).
Proof.
  intros Hg He.
  rewrite (process_file_uncaught _ _ _ _ _ _ _ _ w (extend [Gen] w1) e).
  - rewrite extend_extend. reflexivity.
  - apply answer_loop_raises. unfold retry_loop.
    rewrite attempts_S, (attempt_uncaught _ _ _ _ _ e) by assumption. reflexivity.
  - assumption.
  - exact on_disk.
  - exact removable.
Qed.

(** X15: three retried errors in a row: the model is called three
    times, each call followed by a sleep of 2 seconds (the last one
    too), and what the user is shown is the [UnboundLocalError] of the
    loop's [else] clause, not one of the three errors. *)
Theorem exhausted_retries_are_reported_as_unbound_local (e1 e2 e3 : exn) :
  generate_content env (calls is_generate (log w1)) config input = inl e1 ->
  generate_content env (calls is_generate (log w1) + 1) config input = inl e2 ->
  generate_content env (calls is_generate (log w1) + 2) config input = inl e3 ->
  retried e1 = true -> retried e2 = true -> retried e3 = true ->
  chat env (calls is_chat (log w1)) = None ->
  the_try w
  = (Ret tt,
     unlink p
       (extend [Gen; EvSleep 2; Gen; EvSleep 2; Gen; EvSleep 2;
                EvEdit ("Error: " ++ format_exc env (unbound_local "e")) None;
                EvRemove p] w1)).
Proof.
  intros H1 H2 H3 R1 R2 R3 Hchat.
  rewrite (process_file_reported _ _ _ _ _ _ _ _ w
             (extend [Gen; EvSleep 2; Gen; EvSleep 2; Gen; EvSleep 2] w1)
             (unbound_local "e")).
  - rewrite extend_extend. reflexivity.
  - apply answer_loop_raises.
    apply (attempts_exhausted env config expect_type input w1 e1 e2 e3);
      assumption.
  - reflexivity.
  - rewrite calls_extend_none by reflexivity. assumption.
  - exact on_disk.
  - exact removable.
Qed.

(** X16: a first attempt that succeeds with a non-empty text: when the
    reply body has at most 4000 characters, the handler makes one
    inference call, one edit with that body and markdown markup, and
    removes the downloaded file. *)
Theorem answer_is_edited_in_place (r : Response) (c : Candidate)
    (cs : list Candidate) (s : string) :
  generate_content env (calls is_generate (log w1)) config input = inr r ->
  candidates r = Val (c :: cs) ->
  text r = Val s ->
  s <> "" ->
  String.length ((if show_prompt then "Prompt: " ++ prompt ++ nl else "")
                 ++ "Answer: " ++ s) <= 4000 ->
  chat env (calls is_chat (log w1)) = None ->
  the_try w
  = (Ret tt,
     unlink p
       (extend [Gen;
                EvEdit ((if show_prompt then "Prompt: " ++ prompt ++ nl else "")
                        ++ "Answer: " ++ s) (Some MARKDOWN);
                EvRemove p] w1)).
Proof.
  intros Hg Hc Htext Hs Hlen Hchat.
  assert (Hbody : result_text prompt show_prompt r
                  = (if show_prompt then "Prompt: " ++ prompt ++ nl else "")
                    ++ "Answer: " ++ s).
  { unfold result_text, text_or. rewrite Htext.
    apply String.eqb_neq in Hs. now rewrite Hs. }
  rewrite (process_file_returned _ _ _ _ _ _ _ _ w
             (extend [Gen; EvEdit ((if show_prompt then "Prompt: " ++ prompt ++ nl
                                    else "") ++ "Answer: " ++ s) (Some MARKDOWN)] w1)).
  - rewrite extend_extend. reflexivity.
  - rewrite (answer_after_prepare _ _ _ _ _ _ _ _ _ _ _ prepared).
    unfold bind, retry_loop.
    rewrite attempts_S, (attempt_break _ _ _ _ _ r);
      [| exact Hg | unfold no_candidates; now rewrite Hc].
    rewrite Hbody. unfold deliver.
    destruct (Nat.ltb_spec 4000
                (String.length ((if show_prompt then "Prompt: " ++ prompt ++ nl
                                 else "") ++ "Answer: " ++ s))) as [Hlt | _];
      [lia |].
    unfold edit_text. rewrite chat_call_ok.
    + rewrite extend_extend. reflexivity.
    + rewrite calls_extend_none by reflexivity. assumption.
  - exact on_disk.
  - exact removable.
Qed.

End Reporting.

(** ** The endings on concrete runs *)

Lemma corrupt_image_witness :
  process_file Scenario.env_corrupt 5 Scenario.photo_reply Scenario.tmp
    "Describe" false false (Some "image") Scenario.on_disk
  = (Ret tt,
     {| files := [];
        log := [EvEdit "Error: Truncated File Read" None;
                EvRemove Scenario.tmp] |}).
Proof.
  refine (corrupt_image_fails_before_inference Scenario.env_corrupt 5
            Scenario.photo_reply Scenario.tmp "Describe" false false
            (Some "image") Scenario.on_disk Scenario.truncated_image
            _ _ eq_refl eq_refl _ eq_refl).
  - discriminate.
  - right. exists {| img_path := Scenario.tmp |}. split; reflexivity.
  - left; reflexivity.
Defined.

Lemma failed_video_upload_witness :
  process_file Scenario.env_failed 5 Scenario.video_reply Scenario.tmp
    "Describe" false false None Scenario.on_disk
  = (Ret tt,
     {| files := [];
        log := [EvUpload Scenario.tmp;
                EvSleep 5; EvGetFile "files/abc";
                EvSleep 5; EvGetFile "files/abc";
                EvSleep 5; EvGetFile "files/abc";
                EvEdit "Video failed to process" None;
                EvRemove Scenario.tmp] |}).
Proof.
  pose (fs := fun k : nat =>
                {| name := "files/abc";
                   state_name := match k with
                                 | 0 => "PROCESSING"
                                 | S j => Scenario.failed_after 2 j
                                 end |}).
  refine (failed_video_upload_is_reported Scenario.env_failed 5
            Scenario.video_reply Scenario.tmp "Describe" false false None
            Scenario.on_disk fs 3 eq_refl _ eq_refl _ eq_refl _ eq_refl _ eq_refl).
  - left; discriminate.
  - intros k Hk.
    destruct k as [| [| [| k]]]; [split; reflexivity .. | lia].
  - lia.
  - left; reflexivity.
Defined.

Lemma inference_error_witness :
  process_file Scenario.env_bad_request 5 Scenario.voice_reply Scenario.tmp
    "Describe" false false None Scenario.on_disk
  = (Ret tt,
     {| files := [];
        log := (log Scenario.uploaded
                ++ [EvGenerate None Scenario.voice_input;
                    EvEdit "Unknown field for Part" None;
                    EvRemove Scenario.tmp])%list |}).
Proof.
  refine (inference_error_is_reported Scenario.env_bad_request 5
            Scenario.voice_reply Scenario.tmp "Describe" false false None
            Scenario.voice_input Scenario.on_disk Scenario.uploaded
            eq_refl _ eq_refl Scenario.bad_request eq_refl eq_refl eq_refl
            eq_refl eq_refl).
  left; reflexivity.
Defined.

Lemma base_exception_witness :
  process_file Scenario.env_interrupt 5 Scenario.voice_reply Scenario.tmp
    "Describe" false false None Scenario.on_disk
  = (Raise Scenario.interrupt,
     {| files := [];
        log := (log Scenario.uploaded
                ++ [EvGenerate None Scenario.voice_input;
                    EvRemove Scenario.tmp])%list |}).
Proof.
  refine (base_exception_passes_through Scenario.env_interrupt 5
            Scenario.voice_reply Scenario.tmp "Describe" false false None
            Scenario.voice_input Scenario.on_disk Scenario.uploaded
            eq_refl _ eq_refl Scenario.interrupt eq_refl eq_refl).
  left; reflexivity.
Defined.

Lemma exhausted_retries_witness :
  process_file Scenario.env_quota 5 Scenario.voice_reply Scenario.tmp
    "Describe" false false None Scenario.on_disk
  = (Ret tt,
     {| files := [];
        log := (log Scenario.uploaded
                ++ [EvGenerate None Scenario.voice_input; EvSleep 2;
                    EvGenerate None Scenario.voice_input; EvSleep 2;
                    EvGenerate None Scenario.voice_input; EvSleep 2;
                    EvEdit "Error: cannot access local variable 'e' where it is not associated with a value" None;
                    EvRemove Scenario.tmp])%list |}).
Proof.
  refine (exhausted_retries_are_reported_as_unbound_local Scenario.env_quota 5
            Scenario.voice_reply Scenario.tmp "Describe" false false None
            Scenario.voice_input Scenario.on_disk Scenario.uploaded
            eq_refl _ eq_refl
            Scenario.quota_error Scenario.quota_error Scenario.quota_error
            eq_refl eq_refl eq_refl eq_refl eq_refl eq_refl eq_refl).
  left; reflexivity.
Defined.

Lemma answer_edited_witness :
  process_file Scenario.env_good 5 Scenario.voice_reply Scenario.tmp
    "Describe" true false None Scenario.on_disk
  = (Ret tt,
     {| files := [];
        log := (log Scenario.uploaded
                ++ [EvGenerate None Scenario.voice_input;
                    EvEdit ("Prompt: Describe" ++ nl ++ "Answer: hello")
                      (Some MARKDOWN);
                    EvRemove Scenario.tmp])%list |}).
Proof.
  refine (answer_is_edited_in_place Scenario.env_good 5
            Scenario.voice_reply Scenario.tmp "Describe" true false None
            Scenario.voice_input Scenario.on_disk Scenario.uploaded
            eq_refl _ eq_refl
            Scenario.good {| finish_reason := "STOP" |} [] "hello"
            eq_refl eq_refl eq_refl _ _ eq_refl).
  - left; reflexivity.
  - discriminate.
  - apply Nat.leb_le. vm_compute. reflexivity.
Defined.

(** ** What leaves the [try] statement *)

Lemma report_raises_only_uncaught (env : Env) (x e : exn) (w w' : World) :
  (forall k, chat env k = None) ->
  report env x w = (Raise e, w') -> is_Exception e = false.
Proof.
  intros Hchat. unfold report, edit_text.
  destruct (is_ValueError x).
  - rewrite chat_call_ok by apply Hchat. discriminate.
  - destruct (is_Exception x) eqn:Ex.
    + rewrite chat_call_ok by apply Hchat. discriminate.
    + unfold raise. intros H. inversion H; subst. exact Ex.
Qed.

Lemma cleanup_raises_only_uncaught (env : Env) (p : string) (e : exn) (w w' : World) :
  cleanup env p w = (Raise e, w') -> is_Exception e = false.
Proof.
  unfold cleanup, bind, os_path_exists.
  destruct (exists_file p w); [| discriminate].
  unfold try_except, os_remove_call.
  destruct (os_remove env p) as [x |]; [| discriminate].
  destruct (is_Exception x) eqn:Ex; [discriminate |].
  unfold raise. intros H. inversion H; subst. exact Ex.
Qed.

(** X17: as long as the chat calls succeed, no [Exception] leaves the
    [try] statement: whatever the materializer, the inference call or the
    removal raise, the statement can only raise an exception outside
    [Exception]. *)
Theorem exceptions_do_not_escape
    (env : Env) (fuel : nat) (reply : Reply) (p prompt : string)
    (show_prompt cook_mode : bool) (expect_type : option string)
    (w w' : World) (e : exn) :
  (forall k, chat env k = None) ->
  process_file env fuel reply p prompt show_prompt cook_mode expect_type w
  = (Raise e, w') ->
  is_Exception e = false.
Proof.
  intros Hchat. unfold process_file, try_finally, try_except.
  destruct (answer env fuel reply p prompt show_prompt cook_mode expect_type w)
    as [[[] | x |] w1].
  - destruct (cleanup env p w1) as [[[] | y |] w2] eqn:Ec; try discriminate.
    intros H. inversion H; subst.
    exact (cleanup_raises_only_uncaught env p e w1 w' Ec).
  - destruct (report env x w1) as [[[] | y |] w2] eqn:Er; try discriminate.
    + destruct (cleanup env p w2) as [[[] | z |] w3] eqn:Ec; try discriminate.
      intros H. inversion H; subst.
      exact (cleanup_raises_only_uncaught env p e w2 w' Ec).
    + destruct (cleanup env p w2) as [[[] | z |] w3] eqn:Ec; try discriminate.
      * intros H. inversion H; subst.
        exact (report_raises_only_uncaught env x e w1 w2 Hchat Er).
      * intros H. inversion H; subst.
        exact (cleanup_raises_only_uncaught env p e w2 w' Ec).
  - discriminate.
Qed.

Lemma exceptions_do_not_escape_witness :
  is_Exception Scenario.interrupt = false.
Proof.
  refine (exceptions_do_not_escape Scenario.env_interrupt 5 Scenario.voice_reply
            Scenario.tmp "Describe" false false None Scenario.on_disk
            {| files := [];
               log := (log Scenario.uploaded
                       ++ [EvGenerate None Scenario.voice_input;
                           EvRemove Scenario.tmp])%list |}
            Scenario.interrupt (fun _ => eq_refl) _).
  vm_compute. reflexivity.
Defined.

(** X18: the edit "Could not generate response." is made inside the
    inner [try]: when that edit itself fails with an error of a transient
    signature (a 403 of the chat service, say), the failure is handled
    like one of the inference call: a sleep of 2 seconds and the next
    turn of the loop. *)
Theorem failed_report_of_empty_result_is_retried
    (env : Env) (config : option gen_config) (expect_type : option string)
    (input : list part) (n : nat) (v : option exn) (w : World)
    (r : Response) (x : exn) :
  generate_content env (calls is_generate (log w)) config input = inr r ->
  no_candidates r = true ->
  chat env (calls is_chat (log w)) = Some x ->
  retried x = true ->
  attempts env (S n) v config expect_type input w
  = attempts env n None config expect_type input
      (extend [EvGenerate config input;
               EvEdit "Could not generate response." None;
               EvSleep 2] w).
Proof.
  intros Hg Hc Hchat Hr. apply retried_inv in Hr. destruct Hr as (He & Hm & Ht).
  rewrite attempts_S.
  assert (A : attempt env config expect_type input w
              = (Ret (Continue None),
                 extend [EvGenerate config input;
                         EvEdit "Could not generate response." None;
                         EvSleep 2] w)).
  { unfold attempt, try_except, bind, model_generate_content, record.
    rewrite Hg. simpl. rewrite Hc.
    unfold edit_text. rewrite chat_call_run.
    rewrite calls_extend_none by reflexivity.
    rewrite Hchat. rewrite He, Hm, Ht.
    unfold sleep, record. simpl. rewrite !extend_extend. reflexivity. }
  rewrite A. reflexivity.
Qed.

Lemma failed_report_witness :
  retry_loop Scenario.env_empty_chat_down None None Scenario.input0 Scenario.w0
  = (Ret Returned,
     {| files := [];
        log := [EvGenerate None Scenario.input0;
                EvEdit "Could not generate response." None;
                EvSleep 2;
                EvGenerate None Scenario.input0;
                EvEdit "Could not generate response." None] |}).
Proof.
  unfold retry_loop.
  rewrite (failed_report_of_empty_result_is_retried Scenario.env_empty_chat_down
             None None Scenario.input0 2 None Scenario.w0 Scenario.empty
             Scenario.forbidden eq_refl eq_refl eq_refl eq_refl).
  reflexivity.
Defined.

(** ** Classifier and materializer together *)

(** X19: whatever the expected category, a message that the classifier
    accepts is one for which the materializer has a rule: it carries a
    photo, or the materializer is an upload as video, audio, PDF or
    document followed by the pairing; the unsupported-file-type branch is
    not taken. *)
Theorem accepted_reply_has_a_rule
    (env : Env) (fuel : nat) (reply : Reply) (expect_type : option string)
    (path prompt : string) :
  truthy (_valid_file reply expect_type) = true ->
  photo reply <> None
  \/ exists kind mk,
       In kind ["video"; "audio"; "PDF"; "document"]
       /\ prepare_input_data env fuel reply path prompt
          = (h <- _upload_file env fuel path kind ;; ret (mk h)).
Proof.
  intros Hvalid.
  assert (Hany : present (photo reply) || present (video reply)
                 || present (video_note reply) || present (audio reply)
                 || present (voice reply) || present (document reply) = true).
  { revert Hvalid. unfold _valid_file.
    destruct (match expect_type with Some t => t =? "image" | None => false end).
    - simpl. intros ->. reflexivity.
    - destruct (match expect_type with
                | Some t => (t =? "audio") || (t =? "video")
                | None => false
                end).
      + simpl.
        destruct (present (photo reply)), (present (video reply)),
          (present (video_note reply)), (present (audio reply)),
          (present (voice reply)); simpl; intros H; try reflexivity; discriminate.
      + rewrite !truthy_py_or, !truthy_of_option.
        destruct (present (photo reply)), (present (video reply)),
          (present (video_note reply)), (present (audio reply)),
          (present (voice reply)), (present (document reply));
          simpl; intros H; try reflexivity; discriminate. }
  unfold prepare_input_data.
  destruct (present (photo reply)) eqn:Hp; [left; now apply present_true |].
  right.
  destruct (present (video reply)) eqn:H1;
    [exists "video", (fun h => [PText prompt; PFile h]); simpl; auto |].
  destruct (present (video_note reply)) eqn:H2;
    [exists "video", (fun h => [PText prompt; PFile h]); simpl; auto |].
  destruct (present (audio reply)) eqn:H3;
    [exists "audio", (fun h => [PFile h; PText prompt]); simpl; auto |].
  destruct (present (voice reply)) eqn:H4;
    [exists "audio", (fun h => [PFile h; PText prompt]); simpl; auto |].
  destruct (present (document reply)) eqn:H5;
    [| rewrite ?Hp, ?H1, ?H2, ?H3, ?H4, ?H5 in Hany; discriminate].
  simpl. destruct (PyStr.endswith path ".pdf").
  - exists "PDF", (fun h => [PText prompt; PFile h]). simpl. auto.
  - exists "document", (fun h => [PFile h; PText prompt]). simpl. auto 6.
Qed.

Lemma accepted_reply_witness :
  photo Scenario.video_note_reply <> None
  \/ exists kind mk,
       In kind ["video"; "audio"; "PDF"; "document"]
       /\ prepare_input_data Scenario.env_good 5 Scenario.video_note_reply
            Scenario.tmp "Transcribe"
          = (h <- _upload_file Scenario.env_good 5 Scenario.tmp kind ;; ret (mk h)).
Proof.
  exact (accepted_reply_has_a_rule Scenario.env_good 5 Scenario.video_note_reply
           (Some "audio") Scenario.tmp "Transcribe" eq_refl).
Defined.

(** ** Sizes of the chunks *)

(** X20: every chunk but the last has exactly 4000 characters. *)
Theorem chunks_before_last_are_full (result : string) (k : nat) :
  S k < List.length (chunks result) ->
  String.length (nth k (chunks result) "") = 4000.
Proof.
  rewrite chunks_slices, map_map, length_map, length_seq. intros Hk.
  rewrite nth_indep with (d' := substring (0 * 4000) 4000 result)
    by (rewrite length_map, length_seq; lia).
  rewrite (map_nth (fun j => substring (j * 4000) 4000 result)).
  rewrite seq_nth by lia. rewrite Nat.add_0_l.
  apply range_len_inside in Hk; [| lia].
  rewrite substring_length. lia.
Qed.

Lemma chunks_before_last_witness :
  String.length (nth 1 (chunks (Scenario.text_of_length 8500)) "") = 4000.
Proof.
  apply chunks_before_last_are_full.
  apply Nat.ltb_lt. vm_compute. reflexivity.
Defined.

(** ** The marketing command without argument *)

(** X21: without an argument after the command name, the marketing
    command only edits the message to its usage line: the shared handler
    is not entered, so nothing is downloaded or generated. *)
Theorem aiseller_without_argument_shows_usage
    (env : Env) (fuel : nat) (message : Message) (w : World) :
  List.length (command message) <= 1 ->
  snd (aiseller env fuel message w)
  = extend
      [EvEdit ("Usage: " ++ prefix env
               ++ "aiseller [target audience] [Reply to an image]") None] w.
Proof.
  intros Hlen. unfold aiseller.
  assert (Nat.ltb 1 (List.length (command message)) = false) as ->
    by (apply Nat.ltb_ge; exact Hlen).
  unfold edit_text. rewrite chat_call_run. reflexivity.
Qed.

Lemma aiseller_without_argument_witness :
  snd (aiseller Scenario.env_good 5 Scenario.seller_message Scenario.w0)
  = {| files := [];
       log := [EvEdit "Usage: .aiseller [target audience] [Reply to an image]"
                 None] |}.
Proof.
  apply (aiseller_without_argument_shows_usage Scenario.env_good 5
           Scenario.seller_message Scenario.w0).
  simpl. lia.
Defined.

(** ** The prompt of the generic command *)



